(** * Match predicates of crash signatures and the submission retry loop

    A shallow embedding of [Signatures/Matchers.py] (the classes
    [StringMatch] and [NumberMatch]) and of the POST loop at the end of
    [Collector.submit] in [Collector.py].

    The sources are Python 2 ([unicode], [long]).  A [str], a byte string,
    is modelled by [string], and a [unicode] object by the list of its code
    points; integers are modelled by [Z], an [int] being an integer up to
    [sys.maxint]; [None] by [option]; a raised exception by the [Raise]
    branch of [result]. *)

From Stdlib Require Import ZArith Lia Bool List Ascii String.
From stdpp Require Import base option gmap strings pretty.

Local Open Scope string_scope.

(** ** Exceptions and the error monad *)

(** The exceptions that the modelled code can raise.  [RuntimeError] is what
    the sources raise themselves, with their message; [IndexError],
    [AttributeError], [TypeError] and the two errors of the ASCII codec are
    raised by the interpreter; [MissingFieldError] is the failure of the
    JSON helper. *)
Inductive exn : Type :=
| RuntimeError (msg : string)
| MissingFieldError (key : string)
| IndexError
| AttributeError
| TypeError
| UnicodeEncodeError
| UnicodeDecodeError.

Inductive result (A : Type) : Type :=
| Ok (a : A)
| Raise (e : exn).
Arguments Ok {A} a.
Arguments Raise {A} e.

(** The failure that the specification calls [UnknownOperatorError], with
    the message of the sources. *)
Definition UnknownOperatorError (token : string) : exn :=
  RuntimeError ("Unknown match operator specified: " +:+ token).

(** The failure that the specification calls [InvalidNumberError]. *)
Definition InvalidNumberError (text : string) : exn :=
  RuntimeError ("Invalid number specified: " +:+ text).

#[global] Instance result_ret : MRet result := @Ok.

#[global] Instance result_bind : MBind result :=
  fun A B (f : A -> result B) (m : result A) =>
    match m with
    | Ok a => f a
    | Raise e => Raise e
    end.

(** ** Python 2 [str] primitives used by the matchers *)

Module PyStr.

(** C-locale [isspace]: the bytes 9 to 13 and the blank. *)
Definition isspace (c : ascii) : bool :=
  let n := nat_of_ascii c in
  ((9 <=? n) && (n <=? 13) || (n =? 32))%nat.

(** [s.startswith(p)] *)
Definition startswith (s p : string) : bool := String.prefix p s.

(** [s.endswith(p)] *)
Definition endswith (s p : string) : bool :=
  let n := String.length s in
  let k := String.length p in
  (k <=? n)%nat && String.eqb (substring (n - k) k s) p.

(** A slice bound [i] of a sequence of length [n], after Python's
    normalisation: a negative bound counts from the end, and both are
    clipped to [0..n]. *)
Definition slice_bound (n : nat) (i : Z) : nat :=
  if (i <? 0)%Z then Z.to_nat (Z.max 0 (Z.of_nat n + i))
  else Nat.min n (Z.to_nat i).

(** [s[i:j]] *)
Definition slice (s : string) (i j : Z) : string :=
  let n := String.length s in
  let a := slice_bound n i in
  let b := slice_bound n j in
  substring a (b - a) s.

(** [p in s] for two byte strings: [p] starts at some position of [s]. *)
Fixpoint contains (p s : string) : bool :=
  String.prefix p s ||
  match s with
  | EmptyString => false
  | String _ s' => contains p s'
  end.

Definition lower_char (c : ascii) : ascii :=
  let n := nat_of_ascii c in
  if ((65 <=? n) && (n <=? 90))%nat then ascii_of_nat (n + 32) else c.

(** [s.lower()] *)
Fixpoint lower (s : string) : string :=
  match s with
  | EmptyString => EmptyString
  | String c s' => String (lower_char c) (lower s')
  end.

Fixpoint skip_ws (s : string) : string :=
  match s with
  | EmptyString => EmptyString
  | String c s' => if isspace c then skip_ws s' else s
  end.

(** The longest run of non-blank bytes at the head of [s], and the rest. *)
Fixpoint take_word (s : string) : string * string :=
  match s with
  | EmptyString => (EmptyString, EmptyString)
  | String c s' =>
      if isspace c then (EmptyString, s)
      else let (w, r) := take_word s' in (String c w, r)
  end.

(** [s.split(None, 1)]: leading blanks are dropped; the first word is cut
    at the first run of blanks; what remains after that run, trailing
    blanks included, is the second item when it is not empty. *)
Definition split1 (s : string) : list string :=
  match skip_ws s with
  | EmptyString => []
  | String c s1 =>
      let (w, r) := take_word (String c s1) in
      match skip_ws r with
      | EmptyString => [w]
      | String d r' => [w; String d r']
      end
  end.

Definition hex_digit (c : ascii) : option Z :=
  let n := nat_of_ascii c in
  if ((48 <=? n) && (n <=? 57))%nat then Some (Z.of_nat (n - 48))
  else if ((97 <=? n) && (n <=? 102))%nat then Some (Z.of_nat (n - 87))
  else if ((65 <=? n) && (n <=? 70))%nat then Some (Z.of_nat (n - 55))
  else None.

(** Reads the hexadecimal digits at the head of [s]: the value read on top
    of [acc], the digits seen on top of [n], and the rest of [s]. *)
Fixpoint read_hex (acc : Z) (n : nat) (s : string) : Z * nat * string :=
  match s with
  | EmptyString => (acc, n, EmptyString)
  | String c s' =>
      match hex_digit c with
      | Some d => read_hex (16 * acc + d)%Z (S n) s'
      | None => (acc, n, s)
      end
  end.

Definition read_sign (s : string) : Z * string :=
  match s with
  | String "+" s' => (1%Z, s')
  | String "-" s' => ((-1)%Z, s')
  | _ => (1%Z, s)
  end.

Definition skip_0x (s : string) : string :=
  match s with
  | String "0" (String c s') =>
      if Ascii.eqb c "x" || Ascii.eqb c "X" then s' else s
  | _ => s
  end.

Definition skip_L (s : string) : string :=
  match s with
  | String c s' => if Ascii.eqb c "L" || Ascii.eqb c "l" then s' else s
  | EmptyString => EmptyString
  end.

(** [long(s, 16)] of Python 2; [None] is [ValueError].  The runtime skips
    blanks, reads an optional sign, skips blanks again, skips an optional
    [0x] or [0X], reads at least one hexadecimal digit, then accepts an
    optional [L] or [l] and trailing blanks, and nothing else. *)
Definition long16 (s : string) : option Z :=
  let (sg, s2) := read_sign (skip_ws s) in
  let '(v, n, s5) := read_hex 0 0 (skip_0x (skip_ws s2)) in
  if (n =? 0)%nat then None
  else match skip_ws (skip_L s5) with
       | EmptyString => Some (sg * v)%Z
       | String _ _ => None
       end.

(** Strings of hexadecimal digits, and the value of one, by position. *)
Fixpoint all_hex (h : string) : bool :=
  match h with
  | EmptyString => true
  | String c h' => match hex_digit c with Some _ => all_hex h' | None => false end
  end.

Fixpoint hex_value (h : string) : Z :=
  match h with
  | EmptyString => 0
  | String c h' =>
      default 0 (hex_digit c) * 16 ^ Z.of_nat (String.length h') + hex_value h'
  end%Z.

Fixpoint no_space (w : string) : bool :=
  match w with
  | EmptyString => true
  | String c w' => negb (isspace c) && no_space w'
  end.

Fixpoint all_space (w : string) : bool :=
  match w with
  | EmptyString => true
  | String c w' => isspace c && all_space w'
  end.

End PyStr.
Import PyStr.

(** ** Python 2 [unicode] objects and the ASCII codec *)

Module PyUnicode.

(** A [unicode] object is the list of its code points.  A [str] and a
    [unicode] object that meet in one operation are brought together by
    the default codec, ASCII, which fails on a byte or a code point from
    128 on. *)

(** [str(u)]: [None] is [UnicodeEncodeError]. *)
Fixpoint encode_ascii (u : list N) : option string :=
  match u with
  | [] => Some EmptyString
  | c :: u' =>
      if (c <? 128)%N then
        match encode_ascii u' with
        | Some s => Some (String (ascii_of_N c) s)
        | None => None
        end
      else None
  end.





(** A text object: a [str] or a [unicode]. *)
Inductive text : Type :=
| Str (s : string)
| Unicode (u : list N).

End PyUnicode.
Import PyUnicode.

(** ** The regular expression engine *)

(** [re] is Python's standard library and not code of this repository.  The
    matchers use two things of it: [re.compile], which returns a pattern
    object or raises [re.error] with a diagnostic, and the method [search] of
    a pattern object, which returns a match object or [None].  A match object
    is represented by the position where the match starts. *)
Class ReEngine : Type := {
  pattern : Type;
  re_compile : string -> string + pattern;
  re_search : pattern -> string -> option nat
}.

(** [Sre] is an engine for a fragment of the pattern syntax of [re]: literal
    bytes, [.], the postfix operators [*], [+] and [?] with their lazy forms
    [*?], [+?] and [??], alternation with [|], and a backslash before a
    punctuation byte.  Groups, classes, anchors, counted repetition and the
    escapes of letters and digits are outside the fragment: [compile] reports
    them as unsupported, and nothing below is stated about such patterns. *)
Module Sre.

Inductive regex : Type :=
| Void
| Eps
| Chr (c : ascii)
| Dot
| Cat (r1 r2 : regex)
| Alt (r1 r2 : regex)
| Star (r : regex).

Definition newline : ascii := "010"%char.


Fixpoint nullable (r : regex) : bool :=
  match r with
  | Void | Chr _ | Dot => false
  | Eps | Star _ => true
  | Cat r1 r2 => nullable r1 && nullable r2
  | Alt r1 r2 => nullable r1 || nullable r2
  end.

(** What is left of [r] to match after the byte [c]. *)
Fixpoint deriv (c : ascii) (r : regex) : regex :=
  match r with
  | Void | Eps => Void
  | Chr d => if Ascii.eqb c d then Eps else Void
  | Dot => if Ascii.eqb c newline then Void else Eps
  | Cat r1 r2 =>
      if nullable r1 then Alt (Cat (deriv c r1) r2) (deriv c r2)
      else Cat (deriv c r1) r2
  | Alt r1 r2 => Alt (deriv c r1) (deriv c r2)
  | Star r1 => Cat (deriv c r1) (Star r1)
  end.

(** Whether [r] matches at the start of [s] (the method [match]). *)
Fixpoint match_here (r : regex) (s : string) : bool :=
  nullable r ||
  match s with
  | EmptyString => false
  | String c s' => match_here (deriv c r) s'
  end.

(** The first position from which [r] matches, counted from [i]. *)
Fixpoint search_from (r : regex) (i : nat) (s : string) : option nat :=
  if match_here r s then Some i
  else match s with
       | EmptyString => None
       | String _ s' => search_from r (S i) s'
       end.

Definition search (r : regex) (s : string) : option nat := search_from r 0 s.

(** What may follow in a branch: nothing to repeat yet, an item, an item
    under a greedy operator, an item under a lazy operator. *)
Inductive qstate : Type := NoItem | Item | Greedy | Lazy.

Fixpoint cat_all (l : list regex) : regex :=
  match l with
  | [] => Eps
  | r :: l' => Cat r (cat_all l')
  end.

Fixpoint alt_all (l : list regex) : regex :=
  match l with
  | [] => Void
  | r :: l' => Alt r (alt_all l')
  end.

Definition is_punct (c : ascii) : bool :=
  let n := nat_of_ascii c in
  ((32 <=? n) && (n <=? 47) || (58 <=? n) && (n <=? 64)
   || (91 <=? n) && (n <=? 96) || (123 <=? n) && (n <=? 126))%nat.

Definition unsupported (c : ascii) : bool :=
  existsb (Ascii.eqb c) ["("; ")"; "["; "]"; "{"; "}"; "^"; "$"]%char.

Definition repeat_item (op : ascii) (r : regex) : regex :=
  if Ascii.eqb op "*" then Star r
  else if Ascii.eqb op "+" then Cat r (Star r)
  else Alt r Eps.

(** The parser: [alts] are the finished branches and [cur] the items of
    the branch being read, both latest first. *)
Fixpoint parse (alts cur : list regex) (q : qstate) (s : string)
  : string + regex :=
  match s with
  | EmptyString => inr (alt_all (rev (cat_all (rev cur) :: alts)))
  | String c s' =>
      if Ascii.eqb c "\" then
        match s' with
        | EmptyString => inl "bogus escape (end of line)"
        | String d s'' =>
            if is_punct d then parse alts (Chr d :: cur) Item s''
            else inl "unsupported escape"
        end
      else if unsupported c then inl "unsupported syntax"
      else if Ascii.eqb c "|" then parse (cat_all (rev cur) :: alts) [] NoItem s'
      else if Ascii.eqb c "." then parse alts (Dot :: cur) Item s'
      else if Ascii.eqb c "*" || Ascii.eqb c "+" || Ascii.eqb c "?" then
        match q, cur with
        | Item, r :: cur' => parse alts (repeat_item c r :: cur') Greedy s'
        | Greedy, _ =>
            if Ascii.eqb c "?" then parse alts cur Lazy s'
            else inl "multiple repeat"
        | Lazy, _ => inl "multiple repeat"
        | _, _ => inl "nothing to repeat"
        end
      else parse alts (Chr c :: cur) Item s'
  end.

Definition compile (p : string) : string + regex := parse [] [] NoItem p.

#[export] Instance engine : ReEngine :=
  {| pattern := regex; re_compile := compile; re_search := search |}.

End Sre.

(** ** The JSON helper *)

Module JSONHelper.

(** The value of a field of a JSON object, as far as the matchers look. *)
Inductive jval : Type :=
| JStr (s : string)
| JInt (z : Z)
| JOther.

(** Modelled from the spec: [JSONHelper.getStringChecked] is imported by
    [Matchers.py] and its module is not among the sources.  A required field
    that is absent or not a string fails with [MissingFieldError]; an
    optional field that is absent is [None]; a field that is present must
    be a string. *)
Definition getStringChecked (obj : gmap string jval) (key : string)
    (mandatory : bool) : result (option string) :=
  match obj !! key with
  | None => if mandatory then Raise (MissingFieldError key) else Ok None
  | Some (JStr s) => Ok (Some s)
  | Some _ => Raise (MissingFieldError key)
  end.

End JSONHelper.

(** ** [class StringMatch] *)

Module StringMatch.
Section WithEngine.
Context {E : ReEngine}.

(** What the constructor is given by the signature loader: a [str], a
    [unicode], or a JSON object, whose string fields are held as [str]. *)
Inductive descriptor : Type :=
| DStr (s : string)
| DUnicode (u : list N)
| DObj (o : gmap string JSONHelper.jval).

Record t : Type := mk {
  isPCRE : bool;
  compiledValue : option pattern;
  value : option string
}.

(** [re.compile(self.value)] under [except re.error]; a [value] that is
    not a string is a [TypeError], which the handler does not catch. *)
Definition compile_value (value : option string) : result t :=
  match value with
  | None => Raise TypeError
  | Some v =>
      match re_compile v with
      | inr c => Ok {| isPCRE := true; compiledValue := Some c; value := Some v |}
      | inl e => Raise (RuntimeError ("Error in regular expression: " +:+ e))
      end
  end.

(** [__init__] *)
Definition init (obj : descriptor) : result t :=
  match obj with
  | DStr s =>
      if startswith s "/" && endswith s "/" then
        compile_value (Some (slice s 1 (-1)))
      else Ok {| isPCRE := false; compiledValue := None; value := Some s |}
  | DUnicode u =>
      match encode_ascii u with
      | None => Raise UnicodeEncodeError
      | Some s =>
          if startswith s "/" && endswith s "/" then
            compile_value (Some (slice s 1 (-1)))
          else Ok {| isPCRE := false; compiledValue := None; value := Some s |}
      end
  | DObj o =>
      value ← JSONHelper.getStringChecked o "value" true;
      matchType ← JSONHelper.getStringChecked o "matchType" false;
      match matchType with
      | None => Ok {| isPCRE := false; compiledValue := None; value := value |}
      | Some mt =>
          if String.eqb (lower mt) "contains" then
            Ok {| isPCRE := false; compiledValue := None; value := value |}
          else if String.eqb (lower mt) "pcre" then compile_value value
          else Raise (RuntimeError ("Unknown match operator specified: " +:+ mt))
      end
  end.

(** [matches]: [self.compiledValue.search(val) != None], or
    [self.value in val]. *)
Definition matches (self : t) (val : string) : result bool :=
  if isPCRE self then
    match compiledValue self with
    | Some c => Ok (match re_search c val with Some _ => true | None => false end)
    | None => Raise AttributeError
    end
  else
    match value self with
    | Some v => Ok (contains v val)
    | None => Raise TypeError
    end.

(** The method [search] of a pattern object on a [unicode] candidate. *)
Variable re_search_unicode : pattern -> list N -> option nat.



(** [__str__] *)
Definition str (self : t) : result string :=
  match value self with
  | Some v => Ok v
  | None => Raise TypeError
  end.

(** [__repr__] *)
Definition repr (self : t) : result string :=
  if isPCRE self then
    Ok ("/" +:+ match value self with Some v => v | None => "None" end +:+ "/")
  else
    match value self with
    | Some v => Ok v
    | None => Raise TypeError
    end.

(** The invariant of a constructed predicate: [value] is a string, and the
    compiled pattern is present exactly in PCRE mode, where it is the
    compilation of [value]. *)
Definition well_formed (self : t) : Prop :=
  exists v, value self = Some v /\
    if isPCRE self
    then exists c, re_compile v = inr c /\ compiledValue self = Some c
    else compiledValue self = None.

End WithEngine.
End StringMatch.

(** ** [class NumberMatch] *)

Module NumberMatch.

(** [class NumberMatchType]; the comparison with equality is the absence
    of a match type. *)
Inductive NumberMatchType : Type := GE | GT | LE | LT.

(** [sys.maxint] where the C [long] has 64 bits: an integer is an [int]
    between [-maxint - 1] and [maxint], and a [long] outside. *)
Definition maxint : Z := 2 ^ 63 - 1.

(** A string, an integer by its value, a [long] object of any value, or an
    object of another type, with its name. *)
Inductive descriptor : Type :=
| DStr (s : string)
| DInt (z : Z)
| DLong (z : Z)
| DOther (type : string).

Record t : Type := mk {
  matchType : option NumberMatchType;
  value : option Z
}.

(** [l[i]] *)
Definition item (l : list string) (i : nat) : result string :=
  match l !! i with
  | Some x => Ok x
  | None => Raise IndexError
  end.

(** The chain of comparisons of the first component in [__init__]. *)
Definition parse_matchType (matchType : string) : result (option NumberMatchType) :=
  if String.eqb matchType "==" then Ok None
  else if String.eqb matchType "<" then Ok (Some LT)
  else if String.eqb matchType "<=" then Ok (Some LE)
  else if String.eqb matchType ">" then Ok (Some GT)
  else if String.eqb matchType ">=" then Ok (Some GE)
  else Raise (RuntimeError ("Unknown match operator specified: " +:+ matchType)).

(** [long(number, 16)] under [except ValueError]. *)
Definition read_number (mt : option NumberMatchType) (number : string) : result t :=
  match long16 number with
  | Some v => Ok {| matchType := mt; value := Some v |}
  | None => Raise (RuntimeError ("Invalid number specified: " +:+ number))
  end.

(** [__init__] *)
Definition init (obj : descriptor) : result t :=
  match obj with
  | DStr s =>
      if (0 <? String.length s)%nat then
        let numberMatchComponents := split1 s in
        '(numIdx, mt) ←
          (if (1 <? length numberMatchComponents)%nat then
             matchType ← item numberMatchComponents 0;
             mt ← parse_matchType matchType;
             Ok (1%nat, mt)
           else Ok (0%nat, None));
        number ← item numberMatchComponents numIdx;
        match long16 number with
        | Some v => Ok {| matchType := mt; value := Some v |}
        | None => Raise (RuntimeError ("Invalid number specified: " +:+ number))
        end
      else Ok {| matchType := None; value := None |}
  | DInt z =>
      if (- maxint - 1 <=? z)%Z && (z <=? maxint)%Z
      then Ok {| matchType := None; value := Some z |}
      else Raise (RuntimeError "Invalid type <type 'long'> in NumberMatch.")
  | DLong z => Raise (RuntimeError "Invalid type <type 'long'> in NumberMatch.")
  | DOther type =>
      Raise (RuntimeError ("Invalid type " +:+ type +:+ " in NumberMatch."))
  end.

(** Python 2 orders [None] before every integer, and no integer is equal
    to it. *)
Definition py_ge (a : Z) (b : option Z) : bool :=
  match b with Some r => (a >=? r)%Z | None => true end.
Definition py_gt (a : Z) (b : option Z) : bool :=
  match b with Some r => (a >? r)%Z | None => true end.
Definition py_le (a : Z) (b : option Z) : bool :=
  match b with Some r => (a <=? r)%Z | None => false end.
Definition py_lt (a : Z) (b : option Z) : bool :=
  match b with Some r => (a <? r)%Z | None => false end.
Definition py_eq (a : Z) (b : option Z) : bool :=
  match b with Some r => (a =? r)%Z | None => false end.

(** [matches] *)
Definition matches (self : t) (val : option Z) : result bool :=
  match val with
  | None => Ok (match value self with None => true | Some _ => false end)
  | Some v =>
      match matchType self with
      | Some GE => Ok (py_ge v (value self))
      | Some GT => Ok (py_gt v (value self))
      | Some LE => Ok (py_le v (value self))
      | Some LT => Ok (py_lt v (value self))
      | None => Ok (py_eq v (value self))
      end
  end.

(** The operator tokens of the specification. *)
Definition operator_tokens : list string := ["=="; "<"; "<="; ">"; ">="].

(** The invariant of a constructed predicate: a match type other than
    equality comes with a reference value. *)
Definition well_formed (self : t) : Prop :=
  value self = None -> matchType self = None.

End NumberMatch.

(** ** The POST loop of [Collector.submit] *)

Module Collector.

Record response : Type := { status_code : Z; text : string }.

(** [requests.codes["created"]] *)
Definition created : Z := 201.

Definition retry_codes : list Z := [500; 502; 503; 504]%Z.

(** What the loop does to the outside: a POST, or a sleep of so many
    seconds. *)
Inductive event : Type :=
| Post
| Sleep (seconds : Z).

(** How the loop ends: by [break], or by raising the server error made of
    the last response. *)
Inductive outcome : Type :=
| Submitted
| ServerError (r : response).

(** The loop [while True], unrolled at most [fuel] times.  [server k] is
    the response to POST number [k]; [trace] holds the events so far,
    latest first.  [None] is a loop that is still running when the fuel is
    spent. *)
Fixpoint post_loop (fuel : nat) (server : nat -> response) (k : nat)
    (current_timeout : Z) (trace : list event)
  : option (outcome * list event) :=
  match fuel with
  | O => None
  | S fuel' =>
      let response := server k in
      let trace := Post :: trace in
      if negb (status_code response =? created)%Z then
        if bool_decide (status_code response ∈ retry_codes)
           && (current_timeout <=? 64)%Z
        then post_loop fuel' server (S k) (current_timeout * 2)%Z
                       (Sleep current_timeout :: trace)
        else Some (ServerError response, rev trace)
      else Some (Submitted, rev trace)
  end.

(** The loop as [submit] enters it: [current_timeout = 2]. *)
Definition submit_loop (fuel : nat) (server : nat -> response)
  : option (outcome * list event) :=
  post_loop fuel server 0 2 [].

Definition sleeps (tr : list event) : list Z :=
  omap (fun e => match e with Sleep n => Some n | Post => None end) tr.

Definition total_sleep (tr : list event) : Z := foldr Z.add 0%Z (sleeps tr).

(** The sleeps of the retries, in seconds. *)
Definition backoff : list Z := [2; 4; 8; 16; 32; 64]%Z.

(** [n] sleeps that start at [t] and double. *)
Fixpoint doubling (t : Z) (n : nat) : list Z :=
  match n with
  | O => []
  | S n' => t :: doubling (2 * t)%Z n'
  end.

(** A POST followed by a sleep for each entry of [l], and the last POST. *)
Definition rounds (l : list Z) : list event :=
  flat_map (fun t => [Post; Sleep t]) l ++ [Post].

(** A server that answers with the statuses of [l] in turn, and then with
    [created]. *)
Definition scripted (l : list Z) (k : nat) : response :=
  {| status_code := nth k l created; text := "" |}.

Definition posts (tr : list event) : nat :=
  length (List.filter (fun e => match e with Post => true | Sleep _ => false end) tr).

(** *** The collector object, its guards and its constructor *)

(** The attributes of a [Collector]; each of them can be [None]. *)
Record t : Type := mk {
  sigCacheDir : option string;
  serverHost : option string;
  serverPort : option Z;
  serverProtocol : option string;
  serverAuthToken : option string;
  clientId : option string;
  tool : option string
}.

(** The truth value of an attribute that is a string or [None]: [None] and
    the empty string are false. *)
Definition truthy (o : option string) : bool :=
  match o with
  | Some s => negb (String.eqb s "")
  | None => false
  end.

(** The decorator [remote_checks]; its second test reads [serverHost]
    again. *)
Definition remote_checks {A : Type} (f : t -> result A) (self : t) : result A :=
  if negb (truthy (serverHost self)) then
    Raise (RuntimeError "Must specify serverHost (configuration property: serverhost) to use remote features.")
  else if negb (truthy (serverHost self)) then
    Raise (RuntimeError "Must specify serverAuthToken (configuration property: serverauthtoken) to use remote features.")
  else if negb (truthy (tool self)) then
    Raise (RuntimeError "Must specify tool (configuration property: tool) to use remote features.")
  else f self.

(** The decorator [signature_checks]. *)
Definition signature_checks {A : Type} (f : t -> result A) (self : t) : result A :=
  if negb (truthy (sigCacheDir self)) then
    Raise (RuntimeError "Must specify sigCacheDir (configuration property: sigdir) to use signatures.")
  else f self.

(** [s.rstrip()]: the blanks at the end are dropped. *)
Fixpoint rstrip (s : string) : string :=
  match s with
  | EmptyString => EmptyString
  | String c s' =>
      match rstrip s' with
      | EmptyString => if isspace c then EmptyString else String c EmptyString
      | r => String c r
      end
  end.

(** What [__init__] can raise: [ValueError] from [int], [IOError] from
    [open]. *)
Inductive init_exn : Type := ValueError | IOError.

Section Init.

(** The surroundings of [__init__]: [mainConfig] of the file
    [~/.fuzzmanagerconf], or [None] when the file does not exist; [int] on a
    string, [None] being [ValueError]; the content of a file, [None] being
    [IOError]; the result of [platform.node()]. *)
Variable globalConfig : option (gmap string string).
Variable py_int : string -> option Z.
Variable read_file : string -> option string.
Variable node : string.

(** [if self.x is None and key in globalConfig: self.x = globalConfig[key]] *)
Definition or_config (x : option string) (gc : gmap string string)
    (key : string) : option string :=
  match x with
  | None => gc !! key
  | Some _ => x
  end.

Definition port_of_config (x : option Z) (gc : gmap string string)
  : init_exn + option Z :=
  match x, gc !! "serverport" with
  | None, Some p =>
      match py_int p with
      | Some n => inr (Some n)
      | None => inl ValueError
      end
  | _, _ => inr x
  end.

Definition token_of_config (x : option string) (gc : gmap string string)
  : init_exn + option string :=
  match x with
  | Some _ => inr x
  | None =>
      match gc !! "serverauthtoken" with
      | Some tk => inr (Some tk)
      | None =>
          match gc !! "serverauthtokenfile" with
          | Some path =>
              match read_file path with
              | Some content => inr (Some (rstrip content))
              | None => inl IOError
              end
          | None => inr None
          end
      end
  end.

(** The block of [__init__] under [if os.path.exists(globalConfigFile)]. *)
Definition read_config (self : t) (gc : gmap string string) : init_exn + t :=
  match port_of_config (serverPort self) gc with
  | inl e => inl e
  | inr port =>
      match token_of_config (serverAuthToken self) gc with
      | inl e => inl e
      | inr token =>
          inr {| sigCacheDir := or_config (sigCacheDir self) gc "sigdir";
                 serverHost := or_config (serverHost self) gc "serverhost";
                 serverPort := port;
                 serverProtocol := or_config (serverProtocol self) gc "serverproto";
                 serverAuthToken := token;
                 clientId := or_config (clientId self) gc "clientid";
                 tool := or_config (tool self) gc "tool" |}
      end
  end.

(** The defaults at the end of [__init__]. *)
Definition defaults (self : t) : t :=
  let proto :=
    match serverProtocol self with
    | None => Some "https"
    | Some _ => serverProtocol self
    end in
  let port :=
    match serverPort self with
    | None =>
        if bool_decide (proto = Some "https") then Some 433%Z else Some 80%Z
    | Some _ => serverPort self
    end in
  let client :=
    match serverHost self, clientId self with
    | Some _, None => Some node
    | _, _ => clientId self
    end in
  {| sigCacheDir := sigCacheDir self;
     serverHost := serverHost self;
     serverPort := port;
     serverProtocol := proto;
     serverAuthToken := serverAuthToken self;
     clientId := client;
     tool := tool self |}.

(** [__init__], from the arguments of the constructor. *)
Definition init (args : t) : init_exn + t :=
  match globalConfig with
  | None => inr (defaults args)
  | Some gc =>
      match read_config args gc with
      | inl e => inl e
      | inr self => inr (defaults self)
      end
  end.

End Init.

(** *** [read_testcase] *)

(** [bytearray([7, 8, 9, 10, 12, 13, 27]) + bytearray(range(0x20, 0x100))] *)
Definition textBytes : list ascii :=
  map ascii_of_nat ([7; 8; 9; 10; 12; 13; 27]%nat ++ seq 32 224)%list.

(** [s.translate(None, deletechars)]: the bytes of [deletechars] are
    removed. *)
Fixpoint translate_delete (s : string) (deletechars : list ascii) : string :=
  match s with
  | EmptyString => EmptyString
  | String c s' =>
      if existsb (Ascii.eqb c) deletechars then translate_delete s' deletechars
      else String c (translate_delete s' deletechars)
  end.

(** The lambda [isBinary]: [bool] of a string is that it is not empty. *)
Definition isBinary (input : string) : bool :=
  negb (String.eqb (translate_delete input textBytes) "").

(** [read_testcase], on the content of the file. *)
Definition read_testcase (testCaseData : string) : string * bool :=
  (testCaseData, isBinary testCaseData).

(** A byte that a text file may hold, by its code. *)
Definition text_byte (c : ascii) : bool :=
  let n := nat_of_ascii c in
  ((32 <=? n) || (7 <=? n) && (n <=? 10) || (12 <=? n) && (n <=? 13)
   || (n =? 27))%nat.

(** *** [submit] *)

(** The values that [submit] stores in the dictionary that it posts. *)
Inductive value : Type :=
| VStr (s : string)
| VBool (b : bool)
| VInt (z : Z)
| VNone.

Definition of_option (o : option string) : value :=
  match o with
  | Some s => VStr s
  | None => VNone
  end.

(** [s.lstrip(".")] *)
Fixpoint lstrip_dot (s : string) : string :=
  match s with
  | String "." s' => lstrip_dot s'
  | _ => s
  end.

Section Submit.

(** The classes [CrashInfo] and [ProgramConfiguration] are imported; of their
    objects [submit] reads the attributes below.  [J] is the type of the
    values of a metadata dictionary; [Env] and [Args] are the types of the
    attributes [env] and [args], with their truth value and their JSON
    text.  The functions [json.dumps], [base64.b64encode] and
    [os.path.splitext] and the string [os.linesep] belong to the runtime. *)
Variables J Env Args : Type.
Variable env_truthy : Env -> bool.
Variable args_truthy : Args -> bool.
Variable dumps_metadata : gmap string J -> string.
Variable dumps_env : Env -> string.
Variable dumps_args : Args -> string.
Variable b64encode : string -> string.
Variable splitext : string -> string * string.
Variable linesep : string.
Variable read_file : string -> option string.

Record ProgramConfiguration : Type := {
  platform : string;
  product : string;
  os : string;
  version : option string;
  metadata : option (gmap string J);
  env : option Env;
  args : option Args
}.

Record CrashInfo : Type := {
  rawStdout : list string;
  rawStderr : list string;
  rawCrashData : list string;
  configuration : ProgramConfiguration
}.

(** The truth value of a dictionary or [None]. *)
Definition dict_truthy (d : option (gmap string J)) : bool :=
  match d with
  | Some m => negb (bool_decide (m = ∅))
  | None => false
  end.

(** [d.update(new)] *)
Definition update (d new : gmap string J) : gmap string J := new ∪ d.

(** The entries of the test case, [None] being the [IOError] of [open]. *)
Definition testcase_data (testCase : string) (testCaseQuality : Z)
    (data : gmap string value) : option (gmap string value) :=
  match read_file testCase with
  | None => None
  | Some content =>
      let (testCaseData, isBinary) := read_testcase content in
      let testCaseData := if isBinary then b64encode testCaseData else testCaseData in
      let data := <["testcase" := VStr testCaseData]> data in
      let data := <["testcase_isbinary" := VBool isBinary]> data in
      let data := <["testcase_quality" := VInt testCaseQuality]> data in
      Some (<["testcase_ext" := VStr (lstrip_dot (splitext testCase).2)]> data)
  end.

(** The metadata of the configuration, then those of the caller. *)
Definition aggregate (config_metadata metaData : option (gmap string J))
  : gmap string J :=
  let aggrMetaData := ∅ in
  let aggrMetaData :=
    if dict_truthy config_metadata
    then update aggrMetaData (default ∅ config_metadata) else aggrMetaData in
  if dict_truthy metaData
  then update aggrMetaData (default ∅ metaData) else aggrMetaData.

(** The dictionary [data] that [submit] serialises before its loop. *)
Definition submit_data (self : t) (crashInfo : CrashInfo)
    (testCase : option string) (testCaseQuality : Z)
    (metaData : option (gmap string J)) : option (gmap string value) :=
  let cfg := configuration crashInfo in
  let data : gmap string value := ∅ in
  let data := <["rawStdout" := VStr (String.concat linesep (rawStdout crashInfo))]> data in
  let data := <["rawStderr" := VStr (String.concat linesep (rawStderr crashInfo))]> data in
  let data := <["rawCrashData" := VStr (String.concat linesep (rawCrashData crashInfo))]> data in
  match (if truthy testCase
         then testcase_data (default "" testCase) testCaseQuality data
         else Some data) with
  | None => None
  | Some data =>
      let data := <["platform" := VStr (platform cfg)]> data in
      let data := <["product" := VStr (product cfg)]> data in
      let data := <["os" := VStr (os cfg)]> data in
      let data :=
        if truthy (version cfg)
        then <["product_version" := of_option (version cfg)]> data else data in
      let data := <["client" := of_option (clientId self)]> data in
      let data := <["tool" := of_option (tool self)]> data in
      let data :=
        if dict_truthy (metadata cfg) || dict_truthy metaData
        then <["metadata" := VStr (dumps_metadata (aggregate (metadata cfg) metaData))]> data
        else data in
      let data :=
        match env cfg with
        | Some e => if env_truthy e then <["env" := VStr (dumps_env e)]> data else data
        | None => data
        end in
      let data :=
        match args cfg with
        | Some a => if args_truthy a then <["args" := VStr (dumps_args a)]> data else data
        | None => data
        end in
      Some data
  end.





End Submit.

(** The guards in front of [refresh], in the order of the decorators. *)
Definition refresh {A : Type} (body : t -> result A) (self : t) : result A :=
  remote_checks (signature_checks body) self.

End Collector.

(** * Properties *)

(** ** Byte strings *)

Section StringFacts.

Lemma append_cons (c : ascii) (s t : string) :
  String c s +:+ t = String c (s +:+ t).
Proof. reflexivity. Qed.

Lemma append_nil_l (s : string) : "" +:+ s = s.
Proof. reflexivity. Qed.

Lemma append_nil_r (s : string) : s +:+ "" = s.
Proof. induction s as [|c s IH]; [done | by rewrite append_cons, IH]. Qed.

Lemma append_assoc (a b c : string) : (a +:+ b) +:+ c = a +:+ (b +:+ c).
Proof. induction a as [|x a IH]; [done | by rewrite !append_cons, IH]. Qed.

Lemma append_length (a b : string) :
  String.length (a +:+ b) = (String.length a + String.length b)%nat.
Proof. induction a as [|x a IH]; [done | rewrite append_cons; simpl; by rewrite IH]. Qed.

Lemma append_eq_nil (a b : string) : a +:+ b = "" -> a = "" /\ b = "".
Proof. destruct a; [done | rewrite append_cons; discriminate]. Qed.

(** [String.prefix], which [startswith] and [contains] call, decides that
    the first string starts the second. *)
Lemma prefix_iff (p s : string) :
  String.prefix p s = true <-> exists t, s = p +:+ t.
Proof.
  revert s; induction p as [|c p IH]; intros s.
  - destruct s; simpl; split; eauto.
  - destruct s as [|d s]; simpl.
    + split; [discriminate | intros [t Ht]; discriminate].
    + destruct (ascii_dec c d) as [->|Hne].
      * rewrite IH. split; intros [t Ht]; exists t;
          rewrite append_cons in *; congruence.
      * split; [discriminate | intros [t Ht]].
        rewrite append_cons in Ht. congruence.
Qed.

(** [p in s] holds exactly when [s] is some [l], then [p], then some [r]. *)
Lemma contains_iff (p s : string) :
  contains p s = true <-> exists l r, s = l +:+ p +:+ r.
Proof.
  induction s as [|c s IH].
  - cbn [contains]. rewrite orb_false_r, prefix_iff. split.
    + intros [t Ht]. by exists "", t.
    + intros (l & r & H). symmetry in H.
      apply append_eq_nil in H as [-> H]. by exists r.
  - cbn [contains]. rewrite orb_true_iff, IH, prefix_iff. split.
    + intros [[t Ht] | (l & r & ->)].
      * by exists "", t.
      * by exists (String c l), r.
    + intros ([|d l] & r & H).
      * left. by exists r.
      * right. rewrite append_cons in H. injection H as -> ->. by exists l, r.
Qed.

Lemma substring_prefix (b c : string) :
  substring 0 (String.length b) (b +:+ c) = b.
Proof.
  induction b as [|x b IH]; [by destruct c|].
  rewrite append_cons. cbn [String.length substring]. by rewrite IH.
Qed.

Lemma substring_skip (t s : string) (n m : nat) :
  substring (String.length t + n) m (t +:+ s) = substring n m s.
Proof.
  induction t as [|x t IH]; [done|].
  rewrite append_cons. cbn [String.length Nat.add substring]. apply IH.
Qed.

Lemma startswith_app (p t : string) : startswith (p +:+ t) p = true.
Proof. apply prefix_iff. by exists t. Qed.

Lemma endswith_app (t p : string) : endswith (t +:+ p) p = true.
Proof.
  unfold endswith. rewrite append_length. apply andb_true_iff. split.
  - apply Nat.leb_le. lia.
  - replace (String.length t + String.length p - String.length p)%nat
      with (String.length t + 0)%nat by lia.
    rewrite substring_skip.
    pose proof (substring_prefix p "") as H. rewrite append_nil_r in H.
    rewrite H. apply String.eqb_refl.
Qed.

Lemma substring_split (s : string) (a : nat) :
  (a <= String.length s)%nat ->
  s = substring 0 a s +:+ substring a (String.length s - a) s.
Proof.
  revert a. induction s as [|c s IH]; intros [|a] Ha; simpl in Ha; try lia.
  - done.
  - cbn [substring String.length Nat.sub]. rewrite append_nil_l.
    pose proof (substring_prefix s "") as H. rewrite append_nil_r in H.
    by rewrite H.
  - cbn [substring String.length Nat.sub]. rewrite append_cons.
    f_equal. apply IH. lia.
Qed.

Lemma endswith_iff (s p : string) :
  endswith s p = true <-> exists u, s = u +:+ p.
Proof.
  split; [|intros [u ->]; apply endswith_app].
  unfold endswith. intros [Hle Heq]%andb_true_iff.
  apply Nat.leb_le in Hle. apply String.eqb_eq in Heq.
  exists (substring 0 (String.length s - String.length p) s).
  pose proof (substring_split s (String.length s - String.length p)) as H.
  replace (String.length s - (String.length s - String.length p))%nat
    with (String.length p) in H by lia.
  rewrite Heq in H. apply H. lia.
Qed.


End StringFacts.


(** ** The engine [Sre]: the matcher against the language of a pattern *)

Section SreFacts.
Import Sre.











(** A pattern that matches the empty string is found at the start of every
    string. *)
Lemma search_nullable (r : regex) (s : string) :
  nullable r = true -> search r s = Some 0%nat.
Proof.
  intros H. unfold search. destruct s; cbn [search_from match_here]; by rewrite H.
Qed.

End SreFacts.


(** ** [StringMatch] *)

Section StringMatchFacts.
Context {E : ReEngine}.
Import StringMatch.









(** The text between two slashes is what [value[1:-1]] keeps. *)
Lemma slice_delimited (p : string) : slice ("/" +:+ p +:+ "/") 1 (-1) = p.
Proof.
  unfold slice.
  assert (Hn : String.length ("/" +:+ p +:+ "/") = S (S (String.length p))).
  { rewrite !append_length. simpl. lia. }
  rewrite Hn.
  assert (Ha : slice_bound (S (S (String.length p))) 1 = 1%nat).
  { unfold slice_bound. case Z.ltb_spec; lia. }
  assert (Hb : slice_bound (S (S (String.length p))) (-1) = S (String.length p)).
  { unfold slice_bound. case Z.ltb_spec; lia. }
  rewrite Ha, Hb.
  replace (S (String.length p) - 1)%nat with (String.length p) by lia.
  rewrite append_cons, append_nil_l. cbn [substring].
  apply substring_prefix.
Qed.

(** A string of at least two bytes between slashes is a pattern to compile:
    the text between the slashes. *)
Lemma init_delimited (p : string) :
  init (DStr ("/" +:+ p +:+ "/")) = compile_value (Some p).
Proof.
  unfold init. rewrite startswith_app, <- append_assoc, endswith_app.
  rewrite append_assoc. by rewrite slice_delimited.
Qed.

(** A string that lacks one of the slashes is a literal, as a whole. *)
Lemma init_literal (s : string) :
  startswith s "/" && endswith s "/" = false ->
  init (DStr s) = Ok {| isPCRE := false; compiledValue := None; value := Some s |}.
Proof. unfold init. by intros ->. Qed.

(** The strings that start and end with a slash are the one-byte string
    ["/"], where the same byte is both ends, and the strings with some text
    between two slashes. *)
Lemma delimited_iff (s : string) :
  startswith s "/" && endswith s "/" = true <->
  s = "/" \/ exists p, s = "/" +:+ p +:+ "/".
Proof.
  split.
  - intros [[t ->]%prefix_iff [u Hu]%endswith_iff]%andb_true_iff.
    destruct u as [|c u].
    + left. by rewrite append_nil_l in Hu.
    + right. rewrite !append_cons, append_nil_l in Hu. injection Hu as <- ->.
      by exists u.
  - intros [->|[p ->]]; [done|].
    rewrite startswith_app, <- append_assoc, endswith_app. done.
Qed.

End StringMatchFacts.


(** ** Splitting and reading numbers *)

Section PyStrFacts.

Lemma hex_digit_range (c : ascii) (d : Z) :
  hex_digit c = Some d -> (0 <= d < 16)%Z.
Proof.
  destruct c as [[] [] [] [] [] [] [] []]; vm_compute; intros [= <-]; done.
Qed.

Lemma hex_digit_plain (c : ascii) (d : Z) :
  hex_digit c = Some d ->
  isspace c = false /\ c <> "+"%char /\ c <> "-"%char /\
  Ascii.eqb c "x" || Ascii.eqb c "X" = false.
Proof.
  destruct c as [[] [] [] [] [] [] [] []]; vm_compute; intros [= <-]; done.
Qed.

Lemma hex_value_nonneg (h : string) : (0 <= hex_value h)%Z.
Proof.
  induction h as [|c h IH]; cbn [hex_value]; [done|].
  assert (0 <= 16 ^ Z.of_nat (String.length h))%Z by (apply Z.pow_nonneg; lia).
  destruct (hex_digit c) as [d|] eqn:Hd; cbn [from_option id]; [|lia].
  apply hex_digit_range in Hd. nia.
Qed.

(** The loop over the digits computes the value by position. *)
Lemma read_hex_all_hex (h : string) (acc : Z) (n : nat) :
  all_hex h = true ->
  read_hex acc n h
  = ((acc * 16 ^ Z.of_nat (String.length h) + hex_value h)%Z,
     (n + String.length h)%nat, "").
Proof.
  revert acc n. induction h as [|c h IH]; intros acc n Hh.
  - cbn. f_equal; f_equal; lia.
  - cbn [all_hex] in Hh. cbn [read_hex hex_value String.length].
    destruct (hex_digit c) as [d|]; [|discriminate]. rewrite IH by done.
    cbn [from_option id]. rewrite Nat2Z.inj_succ, Z.pow_succ_r by lia.
    f_equal; f_equal; [ring | lia].
Qed.

Lemma read_hex_nonneg (s : string) (acc : Z) (n : nat) :
  (0 <= acc)%Z -> (0 <= (read_hex acc n s).1.1)%Z.
Proof.
  revert acc n. induction s as [|c s IH]; intros acc n Hacc; cbn [read_hex]; [done|].
  destruct (hex_digit c) as [d|] eqn:Hd; [|done].
  apply IH. apply hex_digit_range in Hd. lia.
Qed.

(** A string of hexadecimal digits is read as its value. *)
Lemma long16_all_hex (h : string) :
  all_hex h = true -> h <> "" -> long16 h = Some (hex_value h).
Proof.
  intros Hh Hne. destruct h as [|c h]; [done|].
  pose proof Hh as Hc. cbn [all_hex] in Hc.
  destruct (hex_digit c) as [d|] eqn:Hd; [|discriminate].
  destruct (hex_digit_plain c d Hd) as (Hsp & Hplus & Hminus & Hx).
  unfold long16. cbn [skip_ws]. rewrite Hsp.
  assert (Hsign : read_sign (String c h) = (1%Z, String c h)).
  { unfold read_sign.
    destruct (ascii_dec c "+") as [->|]; [done|].
    destruct (ascii_dec c "-") as [->|]; [done|].
    destruct c as [[] [] [] [] [] [] [] []]; done. }
  rewrite Hsign. cbn [skip_ws]. rewrite Hsp.
  assert (H0x : skip_0x (String c h) = String c h).
  { unfold skip_0x. destruct h as [|c' h]; [by destruct c as [[] [] [] [] [] [] [] []]|].
    cbn [all_hex] in Hc. destruct (hex_digit c') as [d'|] eqn:Hd'; [|discriminate].
    destruct (hex_digit_plain c' d' Hd') as (_ & _ & _ & ->).
    by destruct c as [[] [] [] [] [] [] [] []]. }
  rewrite H0x, read_hex_all_hex by done.
  cbn [String.length Nat.add Nat.eqb skip_L skip_ws]. f_equal; lia.
Qed.

(** A minus sign before the digits negates the value. *)
Lemma long16_minus (h : string) :
  all_hex h = true -> h <> "" -> long16 ("-" +:+ h) = Some (- hex_value h)%Z.
Proof.
  intros Hh Hne. destruct h as [|c h]; [done|].
  pose proof Hh as Hc. cbn [all_hex] in Hc.
  destruct (hex_digit c) as [d|] eqn:Hd; [|discriminate].
  destruct (hex_digit_plain c d Hd) as (Hsp & Hplus & Hminus & Hx).
  unfold long16. rewrite append_cons, append_nil_l.
  cbn [skip_ws isspace]. change (isspace "-") with false. cbv iota.
  cbn [read_sign skip_ws]. rewrite Hsp.
  assert (H0x : skip_0x (String c h) = String c h).
  { unfold skip_0x. destruct h as [|c' h]; [by destruct c as [[] [] [] [] [] [] [] []]|].
    cbn [all_hex] in Hc. destruct (hex_digit c') as [d'|] eqn:Hd'; [|discriminate].
    destruct (hex_digit_plain c' d' Hd') as (_ & _ & _ & ->).
    by destruct c as [[] [] [] [] [] [] [] []]. }
  rewrite H0x, read_hex_all_hex by done.
  cbn [String.length Nat.add Nat.eqb skip_L skip_ws]. f_equal; lia.
Qed.

Lemma all_hex_no_space (h : string) : all_hex h = true -> no_space h = true.
Proof.
  induction h as [|c h IH]; [done|]. cbn [all_hex no_space].
  destruct (hex_digit c) as [d|] eqn:Hd; [|discriminate].
  destruct (hex_digit_plain c d Hd) as (-> & _). auto.
Qed.

Lemma skip_ws_all_space (ws r : string) :
  all_space ws = true -> skip_ws (ws +:+ r) = skip_ws r.
Proof.
  induction ws as [|c ws IH]; [done|]. cbn [all_space].
  intros [Hc Hws]%andb_true_iff. rewrite append_cons. cbn [skip_ws].
  rewrite Hc. auto.
Qed.

Lemma skip_ws_word (c : ascii) (r : string) :
  isspace c = false -> skip_ws (String c r) = String c r.
Proof. intros H. cbn [skip_ws]. by rewrite H. Qed.

Lemma take_word_no_space (w r : string) :
  no_space w = true ->
  match r with EmptyString => True | String c _ => isspace c = true end ->
  take_word (w +:+ r) = (w, r).
Proof.
  intros Hw Hr. induction w as [|c w IH].
  - rewrite append_nil_l. destruct r as [|d r]; [done|].
    cbn [take_word]. by rewrite Hr.
  - cbn [no_space] in Hw. apply andb_true_iff in Hw as [Hc Hw].
    rewrite append_cons. cbn [take_word].
    destruct (isspace c); [done|]. by rewrite IH.
Qed.

(** Two words with blanks between them are split into the two words. *)
Lemma split1_two (w ws r : string) :
  w <> "" -> no_space w = true ->
  ws <> "" -> all_space ws = true ->
  r <> "" -> no_space r = true ->
  split1 (w +:+ ws +:+ r) = [w; r].
Proof.
  intros Hw Hnw Hws Hsp Hr Hnr.
  destruct w as [|c w]; [done|]. destruct ws as [|d ws]; [done|].
  destruct r as [|e r]; [done|].
  cbn [no_space all_space] in *.
  apply andb_true_iff in Hnw as [Hc%negb_true_iff Hnw].
  apply andb_true_iff in Hsp as [Hd Hsp].
  apply andb_true_iff in Hnr as [He%negb_true_iff Hnr].
  unfold split1. rewrite (append_cons c), skip_ws_word by done.
  rewrite <- (append_cons c).
  rewrite (take_word_no_space (String c w)); cycle 1.
  { cbn [no_space]. by rewrite Hc, Hnw. }
  { by rewrite append_cons. }
  rewrite (skip_ws_all_space (String d ws)) by (cbn [all_space]; by rewrite Hd, Hsp).
  by rewrite skip_ws_word.
Qed.

(** A single word is the only item. *)
Lemma split1_one (w : string) :
  w <> "" -> no_space w = true -> split1 w = [w].
Proof.
  intros Hw Hnw. destruct w as [|c w]; [done|].
  pose proof Hnw as Hc. cbn [no_space] in Hc.
  apply andb_true_iff in Hc as [Hc%negb_true_iff _].
  unfold split1. rewrite skip_ws_word by done.
  pose proof (take_word_no_space (String c w) "" Hnw I) as H.
  rewrite append_nil_r in H. by rewrite H.
Qed.

Lemma skip_ws_suffix (s : string) : exists ws, s = ws +:+ skip_ws s.
Proof.
  induction s as [|c s [ws IH]]; [by exists ""|]. cbn [skip_ws].
  destruct (isspace c); [|by exists ""].
  exists (String c ws). rewrite append_cons. by f_equal.
Qed.

Lemma take_word_app (s : string) : s = (take_word s).1 +:+ (take_word s).2.
Proof.
  induction s as [|c s IH]; [done|]. cbn [take_word].
  destruct (isspace c); [done|]. destruct (take_word s) as [w r].
  simpl in *. rewrite append_cons. by f_equal.
Qed.

(** Every item of the split is a part of the string. *)
Lemma split1_substring (s t : string) :
  t ∈ split1 s -> exists l r, s = l +:+ t +:+ r.
Proof.
  unfold split1. destruct (skip_ws_suffix s) as [ws Hs].
  destruct (skip_ws s) as [|c s1]; [by intros ?%elem_of_nil|].
  pose proof (take_word_app (String c s1)) as Hw.
  destruct (take_word (String c s1)) as [w r]. simpl in Hw.
  destruct (skip_ws_suffix r) as [ws2 Hr].
  destruct (skip_ws r) as [|d r'].
  - intros ->%list_elem_of_singleton. exists ws, r. by rewrite Hs, Hw.
  - rewrite elem_of_cons, list_elem_of_singleton. intros [-> | ->].
    + exists ws, r. by rewrite Hs, Hw.
    + exists (ws +:+ w +:+ ws2), "".
      rewrite Hs, Hw, Hr at 1. by rewrite append_nil_r, !append_assoc.
Qed.

Lemma contains_trans (a b c : string) :
  contains a b = true -> contains b c = true -> contains a c = true.
Proof.
  rewrite !contains_iff. intros (l & r & ->) (l' & r' & ->).
  exists (l' +:+ l), (r +:+ r'). by rewrite !append_assoc.
Qed.

(** A number is negative only when a minus sign was read. *)
Lemma long16_negative (t : string) (v : Z) :
  long16 t = Some v -> (v < 0)%Z -> contains "-" t = true.
Proof.
  unfold long16. destruct (skip_ws_suffix t) as [ws Ht].
  destruct (read_sign (skip_ws t)) as [sg s2] eqn:Hsign.
  pose proof (read_hex_nonneg (skip_0x (skip_ws s2)) 0 0 ltac:(lia)) as Hpos.
  destruct (read_hex 0 0 (skip_0x (skip_ws s2))) as [[mag n] s5]. simpl in Hpos.
  destruct (n =? 0)%nat; [discriminate|].
  destruct (skip_ws (skip_L s5)); [|discriminate]. intros [= <-] Hneg.
  assert (Hminus : skip_ws t = "-" +:+ s2).
  { unfold read_sign in Hsign. destruct (skip_ws t) as [|c u].
    - injection Hsign as <- <-. lia.
    - destruct (ascii_dec c "-") as [->|Hc].
      + by injection Hsign as <- <-.
      + assert (sg = 1%Z); [|lia].
        destruct c as [[] [] [] [] [] [] [] []];
          solve [ by injection Hsign as <- <- | by destruct Hc ]. }
  apply contains_iff. exists ws, s2. by rewrite <- Hminus.
Qed.

End PyStrFacts.

(** ** [NumberMatch] *)

Section NumberMatchFacts.
Import NumberMatch.

Lemma split1_nil : split1 "" = [].
Proof. reflexivity. Qed.

Lemma NumberMatch_init_two (s tok number : string) :
  split1 s = [tok; number] ->
  init (DStr s) = (mt ← parse_matchType tok; read_number mt number).
Proof.
  intros Hs. unfold init. destruct s as [|c s]; [done|].
  cbn [String.length Nat.ltb Nat.leb]. rewrite Hs.
  cbn [length Nat.ltb Nat.leb item lookup list_lookup].
  unfold mbind, result_bind. by destruct (parse_matchType tok).
Qed.

Lemma NumberMatch_init_one (s number : string) :
  split1 s = [number] -> init (DStr s) = read_number None number.
Proof.
  intros Hs. unfold init. destruct s as [|c s]; [done|].
  cbn [String.length Nat.ltb Nat.leb]. by rewrite Hs.
Qed.

Lemma NumberMatch_init_none (s : string) :
  s <> "" -> split1 s = [] -> init (DStr s) = Raise IndexError.
Proof.
  intros Hne Hs. unfold init. destruct s as [|c s]; [done|].
  cbn [String.length Nat.ltb Nat.leb]. by rewrite Hs.
Qed.

Lemma split1_length (s : string) : (length (split1 s) <= 2)%nat.
Proof.
  unfold split1. destruct (skip_ws s); [simpl; lia|].
  destruct (take_word _) as [w r]. destruct (skip_ws r); simpl; lia.
Qed.

Lemma read_number_value (mt : option NumberMatchType) (number : string) (nm : t) :
  read_number mt number = Ok nm ->
  matchType nm = mt /\ exists v, long16 number = Some v /\ value nm = Some v.
Proof.
  unfold read_number. destruct (long16 number) as [v|]; [|discriminate].
  intros [= <-]. eauto.
Qed.

(** A predicate built from a string has a reference value, unless the
    string is empty; one built otherwise compares with equality. *)
Lemma NumberMatch_init_well_formed (d : descriptor) (nm : t) :
  init d = Ok nm -> well_formed nm.
Proof.
  unfold well_formed.
  destruct d as [s|z|z|ty]; [| | discriminate | discriminate].
  2:{ simpl. destruct (_ && _); [by intros [= <-] | discriminate]. }
  destruct s as [|c s]; [by intros [= <-]|].
  pose proof (split1_length (String c s)) as Hlen.
  destruct (split1 (String c s)) as [|tok [|number [|? ?]]] eqn:Hs;
    [| | |simpl in Hlen; lia].
  - rewrite NumberMatch_init_none by done. discriminate.
  - rewrite (NumberMatch_init_one _ _ Hs). intros (_ & v & _ & ->)%read_number_value.
    discriminate.
  - rewrite (NumberMatch_init_two _ _ _ Hs). unfold mbind, result_bind.
    destruct (parse_matchType tok); [|discriminate].
    intros (_ & v & _ & ->)%read_number_value. discriminate.
Qed.


Lemma operator_token_no_space (tok : string) :
  tok ∈ operator_tokens -> tok <> "" /\ no_space tok = true.
Proof.
  unfold operator_tokens. rewrite !elem_of_cons, elem_of_nil.
  intros [->|[->|[->|[->|[->|[]]]]]]; done.
Qed.

Lemma parse_matchType_known (tok : string) :
  tok ∈ operator_tokens -> exists mt, parse_matchType tok = Ok mt.
Proof.
  unfold operator_tokens. rewrite !elem_of_cons, elem_of_nil.
  intros [->|[->|[->|[->|[->|[]]]]]]; eauto.
Qed.

Lemma parse_matchType_unknown (tok : string) :
  tok ∉ operator_tokens ->
  parse_matchType tok = Raise (UnknownOperatorError tok).
Proof.
  unfold operator_tokens. rewrite !elem_of_cons, elem_of_nil. intros H.
  unfold parse_matchType.
  destruct (String.eqb_spec tok "==") as [Heq|_]; [exfalso; apply H; tauto|].
  destruct (String.eqb_spec tok "<") as [Heq|_]; [exfalso; apply H; tauto|].
  destruct (String.eqb_spec tok "<=") as [Heq|_]; [exfalso; apply H; tauto|].
  destruct (String.eqb_spec tok ">") as [Heq|_]; [exfalso; apply H; tauto|].
  destruct (String.eqb_spec tok ">=") as [Heq|_]; [exfalso; apply H; tauto|].
  done.
Qed.

End NumberMatchFacts.

(** ** Claims about the text predicate *)





(** C6. At the one-byte string ["/"] the constructor does not keep a literal:
    the byte is taken for both delimiters, the pattern is the empty text
    between them, and the predicate is in PCRE mode.  With the engine [Sre]
    this predicate matches every candidate, and [__repr__] shows it as
    ["//"]. *)
Theorem C6_single_slash_is_pcre :
  (forall E : ReEngine,
      @StringMatch.init E (StringMatch.DStr "/")
      = StringMatch.compile_value (Some "")) /\
  (exists sm : @StringMatch.t Sre.engine,
      StringMatch.init (StringMatch.DStr "/") = Ok sm /\
      StringMatch.isPCRE sm = true /\
      StringMatch.value sm = Some "" /\
      (forall s, StringMatch.matches sm s = Ok true) /\
      StringMatch.repr sm = Ok "//").
Proof.
  split; [reflexivity|]. eexists. repeat split.
  intros s. unfold StringMatch.matches. simpl.
  by rewrite (search_nullable _ s).
Qed.


(** ** The scenarios of the specification, and some edge cases *)

Section Scenarios.

Example scenario_contains :
  exists sm : @StringMatch.t Sre.engine,
    StringMatch.init
      (StringMatch.DObj (<["value" := JSONHelper.JStr "SEGV"]>
                           (<["matchType" := JSONHelper.JStr "contains"]> ∅)))
    = Ok sm /\
    StringMatch.matches sm "signal SEGV received" = Ok true /\
    StringMatch.matches sm "signal segv received" = Ok false.
Proof. eexists. by repeat split. Qed.

Example scenario_less :
  NumberMatch.init (NumberMatch.DStr "< 7fff0000")
  = Ok (NumberMatch.mk (Some NumberMatch.LT) (Some 2147418112%Z)).
Proof. reflexivity. Qed.

Example scenario_empty_number :
  NumberMatch.matches (NumberMatch.mk None None) None = Ok true /\
  NumberMatch.matches (NumberMatch.mk None None) (Some 0%Z) = Ok false.
Proof. by split. Qed.

(** A string of blanks splits into no item, and the constructor fails on
    the index. *)
Example blank_number_descriptor :
  NumberMatch.init (NumberMatch.DStr " ") = Raise IndexError.
Proof. reflexivity. Qed.

(** The number is read in base 16 with or without the prefix [0x]. *)
Example prefixed_number :
  NumberMatch.init (NumberMatch.DStr "== 0x10")
  = NumberMatch.init (NumberMatch.DStr "== 10").
Proof. reflexivity. Qed.

(** Python 2 orders [None] before every integer: a record with a match
    type and no reference value, which no constructor returns, would match
    every integer under [>=]. *)
Example ordering_against_None :
  NumberMatch.matches (NumberMatch.mk (Some NumberMatch.GE) None) (Some 5%Z)
  = Ok true.
Proof. reflexivity. Qed.

End Scenarios.



(** ** Claims about the numeric predicate *)

(** C3. For a constructed numeric predicate: on an absent candidate,
    [matches] returns whether the reference value is absent too, whatever
    the match type; and when the reference value is absent, [matches]
    returns [True] on the absent candidate and [False] on every integer. *)
Theorem C3_absent_candidate_and_reference
    (d : NumberMatch.descriptor) (nm : NumberMatch.t) :
  NumberMatch.init d = Ok nm ->
  (forall op,
      NumberMatch.matches (NumberMatch.mk op (NumberMatch.value nm)) None
      = Ok (bool_decide (NumberMatch.value nm = None))) /\
  (NumberMatch.value nm = None ->
   NumberMatch.matches nm None = Ok true /\
   forall n : Z, NumberMatch.matches nm (Some n) = Ok false).
Proof.
  intros Hwf%NumberMatch_init_well_formed. split.
  - intros op. unfold NumberMatch.matches. simpl.
    by destruct (NumberMatch.value nm).
  - intros Hv. specialize (Hwf Hv). unfold NumberMatch.matches.
    by rewrite Hv, Hwf.
Qed.

Lemma C3_witness :
  NumberMatch.init (NumberMatch.DStr "") = Ok (NumberMatch.mk None None) /\
  (forall op,
      NumberMatch.matches (NumberMatch.mk op None) None
      = Ok (bool_decide (@None Z = None))) /\
  (@None Z = None ->
   NumberMatch.matches (NumberMatch.mk None None) None = Ok true /\
   forall n : Z, NumberMatch.matches (NumberMatch.mk None None) (Some n) = Ok false).
Proof.
  split; [reflexivity|].
  apply (C3_absent_candidate_and_reference (NumberMatch.DStr "")
           (NumberMatch.mk None None)).
  reflexivity.
Defined.

(** C4. A string made of an operator token, blanks, and hexadecimal digits
    [h] gives the predicate with the reference value of [h] and the match
    type of the token: equality for [==], [LT] for [<], [LE] for [<=], [GT]
    for [>], [GE] for [>=].  On an integer candidate [c], [matches] returns
    the comparison of [c], on the left, with the reference value: [<=] and
    [>=] hold at equality, [<] and [>] do not. *)
Theorem C4_operator_tokens_compare (ws h : string) :
  ws <> "" -> all_space ws = true -> h <> "" -> all_hex h = true ->
  (NumberMatch.init (NumberMatch.DStr ("==" +:+ ws +:+ h))
   = Ok (NumberMatch.mk None (Some (hex_value h))) /\
   forall c : Z,
     NumberMatch.matches (NumberMatch.mk None (Some (hex_value h))) (Some c)
     = Ok (bool_decide (c = hex_value h))) /\
  (NumberMatch.init (NumberMatch.DStr ("<" +:+ ws +:+ h))
   = Ok (NumberMatch.mk (Some NumberMatch.LT) (Some (hex_value h))) /\
   forall c : Z,
     NumberMatch.matches (NumberMatch.mk (Some NumberMatch.LT) (Some (hex_value h))) (Some c)
     = Ok (bool_decide (c < hex_value h)%Z)) /\
  (NumberMatch.init (NumberMatch.DStr ("<=" +:+ ws +:+ h))
   = Ok (NumberMatch.mk (Some NumberMatch.LE) (Some (hex_value h))) /\
   forall c : Z,
     NumberMatch.matches (NumberMatch.mk (Some NumberMatch.LE) (Some (hex_value h))) (Some c)
     = Ok (bool_decide (c <= hex_value h)%Z)) /\
  (NumberMatch.init (NumberMatch.DStr (">" +:+ ws +:+ h))
   = Ok (NumberMatch.mk (Some NumberMatch.GT) (Some (hex_value h))) /\
   forall c : Z,
     NumberMatch.matches (NumberMatch.mk (Some NumberMatch.GT) (Some (hex_value h))) (Some c)
     = Ok (bool_decide (hex_value h < c)%Z)) /\
  (NumberMatch.init (NumberMatch.DStr (">=" +:+ ws +:+ h))
   = Ok (NumberMatch.mk (Some NumberMatch.GE) (Some (hex_value h))) /\
   forall c : Z,
     NumberMatch.matches (NumberMatch.mk (Some NumberMatch.GE) (Some (hex_value h))) (Some c)
     = Ok (bool_decide (hex_value h <= c)%Z)).
Proof.
  intros Hws Hsp Hh Hhex.
  assert (Hinit : forall tok mt,
    tok <> "" -> no_space tok = true ->
    NumberMatch.parse_matchType tok = Ok mt ->
    NumberMatch.init (NumberMatch.DStr (tok +:+ ws +:+ h))
    = Ok (NumberMatch.mk mt (Some (hex_value h)))).
  { intros tok mt Htok Hns Hmt.
    rewrite (NumberMatch_init_two _ tok h)
      by (apply split1_two; auto using all_hex_no_space).
    rewrite Hmt. unfold mbind, result_bind, NumberMatch.read_number.
    by rewrite long16_all_hex. }
  repeat split; try (by apply Hinit); intros c;
    unfold NumberMatch.matches; simpl; f_equal.
  - destruct (Z.eqb_spec c (hex_value h)); by case_bool_decide.
  - destruct (Z.ltb_spec c (hex_value h)); case_bool_decide; (done || lia).
  - destruct (Z.leb_spec c (hex_value h)); case_bool_decide; (done || lia).
  - rewrite Z.gtb_ltb.
    destruct (Z.ltb_spec (hex_value h) c); case_bool_decide; (done || lia).
  - rewrite Z.geb_leb.
    destruct (Z.leb_spec (hex_value h) c); case_bool_decide; (done || lia).
Qed.

Lemma C4_witness :
  " " <> "" /\ all_space " " = true /\
  "7fff0000" <> "" /\ all_hex "7fff0000" = true /\
  NumberMatch.init (NumberMatch.DStr "< 7fff0000")
  = Ok (NumberMatch.mk (Some NumberMatch.LT) (Some 2147418112%Z)) /\
  NumberMatch.matches (NumberMatch.mk (Some NumberMatch.LT) (Some 2147418112%Z))
    (Some 4096%Z) = Ok true /\
  NumberMatch.matches (NumberMatch.mk (Some NumberMatch.LT) (Some 2147418112%Z))
    (Some 2147483648%Z) = Ok false.
Proof.
  assert (H1 : " " <> "") by discriminate.
  assert (H2 : all_space " " = true) by reflexivity.
  assert (H3 : "7fff0000" <> "") by discriminate.
  assert (H4 : all_hex "7fff0000" = true) by reflexivity.
  destruct (C4_operator_tokens_compare " " "7fff0000" H1 H2 H3 H4)
    as (_ & (Hinit & Hcmp) & _).
  split; [exact H1|]. split; [exact H2|]. split; [exact H3|]. split; [exact H4|].
  split; [exact Hinit|]. split; [exact (Hcmp 4096%Z) | exact (Hcmp 2147483648%Z)].
Defined.

(** ** Claims about failures of the constructors *)

Section Messages.

Lemma UnknownOperatorError_inj (a b : string) :
  UnknownOperatorError a = UnknownOperatorError b -> a = b.
Proof. intros [= H]. by apply (inj (String.append _)) in H. Qed.

Lemma InvalidNumberError_ne (a b : string) :
  InvalidNumberError a <> UnknownOperatorError b.
Proof. by intros [=]. Qed.

Lemma regex_error_ne (a b : string) :
  RuntimeError ("Error in regular expression: " +:+ a) <> UnknownOperatorError b.
Proof. by intros [=]. Qed.

Lemma read_number_not_unknown_operator mt (number tok : string) :
  NumberMatch.read_number mt number <> Raise (UnknownOperatorError tok).
Proof.
  unfold NumberMatch.read_number. destruct (long16 number); [discriminate|].
  intros H. apply (InvalidNumberError_ne number tok).
  unfold InvalidNumberError, UnknownOperatorError in *. congruence.
Qed.

Lemma compile_value_not_unknown_operator `{E : ReEngine} v (tok : string) :
  StringMatch.compile_value v <> Raise (UnknownOperatorError tok).
Proof.
  unfold StringMatch.compile_value. destruct v as [v|]; [|discriminate].
  destruct (re_compile v) as [e|c]; [|discriminate].
  intros H. apply (regex_error_ne e tok).
  unfold UnknownOperatorError in *. congruence.
Qed.

End Messages.

(** C7. The text constructor applied to a structured descriptor fails with
    the unknown-operator error naming [tok] exactly when the field [value]
    is a string and the field [matchType] is the string [tok], which in
    lower case is neither [contains] nor [pcre].  The numeric constructor
    applied to a string fails with that error naming [tok] exactly when the
    string splits into two items, the first being [tok], and [tok] is none
    of [==], [<], [<=], [>], [>=].  The descriptor ["~~ 10"] fails naming
    [~~]. *)
Theorem C7_unknown_operator_exactly :
  (forall (E : ReEngine) (o : gmap string JSONHelper.jval) (tok : string),
      StringMatch.init (StringMatch.DObj o) = Raise (UnknownOperatorError tok) <->
      (exists v, o !! "value" = Some (JSONHelper.JStr v)) /\
      o !! "matchType" = Some (JSONHelper.JStr tok) /\
      lower tok <> "contains" /\ lower tok <> "pcre") /\
  (forall s tok : string,
      NumberMatch.init (NumberMatch.DStr s) = Raise (UnknownOperatorError tok) <->
      exists number, split1 s = [tok; number] /\
                     tok ∉ NumberMatch.operator_tokens) /\
  NumberMatch.init (NumberMatch.DStr "~~ 10") = Raise (UnknownOperatorError "~~").
Proof.
  split; [|split].
  - intros E o tok. unfold StringMatch.init, JSONHelper.getStringChecked.
    unfold mbind, result_bind.
    destruct (o !! "value") as [[v| |]|]; try (split; [discriminate | by intros [[? ?] _]]).
    destruct (o !! "matchType") as [[m| |]|];
      try (split; [discriminate | by intros (_ & ? & _)]).
    destruct (String.eqb_spec (lower m) "contains") as [Hc|Hc].
    { split; [discriminate | by intros (_ & [= ->] & ? & _)]. }
    destruct (String.eqb_spec (lower m) "pcre") as [Hp|Hp].
    { split; [by intros ?%compile_value_not_unknown_operator
             | by intros (_ & [= ->] & _ & ?)]. }
    split.
    + intros [= H]. apply (inj (String.append _)) in H as ->. eauto.
    + by intros (_ & [= ->] & _).
  - intros s tok. destruct s as [|c s].
    { split; [discriminate | by intros (? & ? & _)]. }
    pose proof (split1_length (String c s)) as Hlen.
    destruct (split1 (String c s)) as [|t [|number [|? ?]]] eqn:Hs;
      [| | |simpl in Hlen; lia].
    + rewrite NumberMatch_init_none by done.
      split; [discriminate | by intros (? & ? & _)].
    + rewrite (NumberMatch_init_one _ _ Hs).
      split; [by intros ?%read_number_not_unknown_operator
             | by intros (? & ? & _)].
    + rewrite (NumberMatch_init_two _ _ _ Hs).
      destruct (decide (t ∈ NumberMatch.operator_tokens)) as [Hin|Hnin].
      * destruct (parse_matchType_known t Hin) as [mt ->].
        unfold mbind, result_bind.
        split; [by intros ?%read_number_not_unknown_operator
               | by intros (? & [= -> _] & ?)].
      * rewrite parse_matchType_unknown by done. unfold mbind, result_bind.
        split.
        -- intros [= H]. apply (inj (String.append _)) in H as ->. eauto.
        -- by intros (? & [= -> _] & _).
  - reflexivity.
Qed.

(** C8 does not hold as stated.  The descriptor ["-5"] is accepted, with the
    reference value [-5]: the parser of numbers does not reject a minus
    sign, and a constructed predicate can hold a negative reference value. *)
Lemma C8_negative_number_accepted :
  NumberMatch.init (NumberMatch.DStr "-5")
  = Ok (NumberMatch.mk None (Some (-5)%Z)) /\
  ~ (forall (s : string) (nm : NumberMatch.t) (v : Z),
        NumberMatch.init (NumberMatch.DStr s) = Ok nm ->
        NumberMatch.value nm = Some v -> (0 <= v)%Z).
Proof.
  split; [reflexivity|]. intros H.
  specialize (H "-5" (NumberMatch.mk None (Some (-5)%Z)) (-5)%Z eq_refl eq_refl).
  lia.
Qed.

(** C8, amended. The parser of numbers reads a sign.  A minus sign followed
    by hexadecimal digits [h], alone or after one of the operator tokens
    [==], [<], [<=], [>], [>=] and blanks, gives the predicate of that
    token whose reference value is minus the value of [h].  The reference
    value of a predicate built from a string is negative only when the
    string holds a minus sign. *)
Theorem C8_reference_sign :
  (forall h : string,
      h <> "" -> all_hex h = true ->
      NumberMatch.init (NumberMatch.DStr ("-" +:+ h))
      = Ok (NumberMatch.mk None (Some (- hex_value h)%Z))) /\
  (forall tok ws h : string,
      tok ∈ NumberMatch.operator_tokens ->
      ws <> "" -> all_space ws = true ->
      h <> "" -> all_hex h = true ->
      exists mt,
        NumberMatch.parse_matchType tok = Ok mt /\
        NumberMatch.init (NumberMatch.DStr (tok +:+ ws +:+ "-" +:+ h))
        = Ok (NumberMatch.mk mt (Some (- hex_value h)%Z))) /\
  (forall (s : string) (nm : NumberMatch.t) (v : Z),
      NumberMatch.init (NumberMatch.DStr s) = Ok nm ->
      NumberMatch.value nm = Some v ->
      (v < 0)%Z -> contains "-" s = true).
Proof.
  assert (Hminus : forall h, all_hex h = true ->
            "-" +:+ h <> "" /\ no_space ("-" +:+ h) = true).
  { intros h Hhex. rewrite append_cons, append_nil_l. split; [discriminate|].
    cbn [no_space]. by rewrite all_hex_no_space. }
  split; [|split].
  - intros h Hne Hhex. destruct (Hminus h Hhex) as [Hm Hns].
    rewrite (NumberMatch_init_one _ ("-" +:+ h)) by (by apply split1_one).
    unfold NumberMatch.read_number. by rewrite long16_minus.
  - intros tok ws h Htok Hws Hsp Hne Hhex. destruct (Hminus h Hhex) as [Hm Hns].
    destruct (operator_token_no_space tok Htok) as [Ht Hnt].
    destruct (parse_matchType_known tok Htok) as [mt Hmt].
    exists mt. split; [done|].
    rewrite (NumberMatch_init_two _ tok ("-" +:+ h)) by (by apply split1_two).
    rewrite Hmt. unfold mbind, result_bind, NumberMatch.read_number.
    by rewrite long16_minus.
  - intros s nm v Hinit Hv Hneg. destruct s as [|c s]; [by injection Hinit as <-|].
    pose proof (split1_length (String c s)) as Hlen.
    assert (Hnum : exists number, number ∈ split1 (String c s) /\
                                  long16 number = Some v).
    { destruct (split1 (String c s)) as [|t [|number [|? ?]]] eqn:Hs;
        [| | |simpl in Hlen; lia].
      - rewrite NumberMatch_init_none in Hinit by done. discriminate.
      - rewrite (NumberMatch_init_one _ _ Hs) in Hinit.
        apply read_number_value in Hinit as (_ & v' & Hl & Hv').
        exists t. split; [apply list_elem_of_here | congruence].
      - rewrite (NumberMatch_init_two _ _ _ Hs) in Hinit.
        unfold mbind, result_bind in Hinit.
        destruct (NumberMatch.parse_matchType t); [|discriminate].
        apply read_number_value in Hinit as (_ & v' & Hl & Hv').
        exists number. split; [apply list_elem_of_further, list_elem_of_here | congruence]. }
    destruct Hnum as (number & Hin & Hl).
    apply split1_substring in Hin.
    apply (contains_trans _ number); [by apply (long16_negative _ v)|].
    by apply contains_iff.
Qed.

Lemma C8_witness :
  "5" <> "" /\ all_hex "5" = true /\
  NumberMatch.init (NumberMatch.DStr "-5") = Ok (NumberMatch.mk None (Some (-5)%Z)) /\
  "<=" ∈ NumberMatch.operator_tokens /\ " " <> "" /\ all_space " " = true /\
  (exists mt,
      NumberMatch.parse_matchType "<=" = Ok mt /\
      NumberMatch.init (NumberMatch.DStr ("<=" +:+ " " +:+ "-" +:+ "5"))
      = Ok (NumberMatch.mk mt (Some (- hex_value "5")%Z))) /\
  contains "-" ">= -1f" = true.
Proof.
  assert (H1 : "5" <> "") by discriminate.
  assert (H2 : all_hex "5" = true) by reflexivity.
  assert (H3 : "<=" ∈ NumberMatch.operator_tokens).
  { apply list_elem_of_further, list_elem_of_further, list_elem_of_here. }
  assert (H4 : " " <> "") by discriminate.
  assert (H5 : all_space " " = true) by reflexivity.
  split; [exact H1|]. split; [exact H2|].
  split; [exact (proj1 C8_reference_sign "5" H1 H2)|].
  split; [exact H3|]. split; [exact H4|]. split; [exact H5|].
  split; [exact (proj1 (proj2 C8_reference_sign) "<=" " " "5" H3 H4 H5 H1 H2)|].
  apply (proj2 (proj2 C8_reference_sign) ">= -1f"
           (NumberMatch.mk (Some NumberMatch.GE) (Some (-31)%Z)) (-31)%Z);
    [reflexivity | reflexivity | lia].
Defined.


(** ** The POST loop *)

Section CollectorFacts.
Import Collector.

Lemma sleeps_rounds (l : list Z) : sleeps (rounds l) = l.
Proof. unfold rounds. induction l as [|t l IH]; [done|]. simpl. by f_equal. Qed.

Lemma posts_rounds (l : list Z) : posts (rounds l) = S (length l).
Proof.
  unfold posts, rounds. induction l as [|t l IH]; [done|]. simpl. by rewrite IH.
Qed.

Lemma rounds_cons (t : Z) (l : list Z) : rounds (t :: l) = Post :: Sleep t :: rounds l.
Proof. reflexivity. Qed.

(** One turn of the loop. *)
Lemma post_loop_step (fuel : nat) (server : nat -> response) (k : nat)
    (ct : Z) (trace : list event) :
  post_loop (S fuel) server k ct trace
  = if negb (status_code (server k) =? created)%Z then
      if bool_decide (status_code (server k) ∈ retry_codes) && (ct <=? 64)%Z
      then post_loop fuel server (S k) (ct * 2)%Z (Sleep ct :: Post :: trace)
      else Some (ServerError (server k), rev (Post :: trace))
    else Some (Submitted, rev (Post :: trace)).
Proof. reflexivity. Qed.

(** The bookkeeping of a run that ends at the POST at hand. *)
Ltac stop_here :=
  rewrite Nat.add_0_r; cbn [doubling rev];
  split; [done|]; split; [lia|]; split; [by intros ? ?%elem_of_nil|];
  split; [intros; lia|].

(** One run of the loop from any state with a positive sleep: when the fuel
    covers the doublings that stay within 64, the loop ends, after [n]
    retries that each follow a status among the retry codes. *)
Lemma post_loop_run (server : nat -> response) (f : nat) :
  forall (k : nat) (ct : Z) (trace : list event),
    (0 < ct)%Z -> (64 < ct * 2 ^ Z.of_nat f)%Z ->
    exists (n : nat) (out : outcome),
      post_loop (S f) server k ct trace
      = Some (out, (rev trace ++ rounds (doubling ct n))%list) /\
      (n <= f)%nat /\
      (forall t, t ∈ doubling ct n -> (t <= 64)%Z) /\
      (forall i, (i < n)%nat -> status_code (server (k + i)%nat) ∈ retry_codes) /\
      match out with
      | Submitted => status_code (server (k + n)%nat) = created
      | ServerError r =>
          r = server (k + n)%nat /\ status_code r <> created /\
          (status_code r ∉ retry_codes \/ (64 < ct * 2 ^ Z.of_nat n)%Z)
      end.
Proof.
  induction f as [|f IH]; intros k ct trace Hct Hfuel.
  - (* no doubling fits: this POST is the last *)
    rewrite post_loop_step. rewrite Z.pow_0_r, Z.mul_1_r in Hfuel.
    destruct (Z.eqb_spec (status_code (server k)) created) as [Hc|Hc]; cbn [negb].
    + exists 0%nat, Submitted. stop_here. done.
    + replace (ct <=? 64)%Z with false by (symmetry; apply Z.leb_gt; lia).
      rewrite andb_false_r.
      exists 0%nat, (ServerError (server k)). stop_here.
      repeat split; [done|]. right. rewrite Z.pow_0_r. lia.
  - rewrite post_loop_step.
    destruct (Z.eqb_spec (status_code (server k)) created) as [Hc|Hc]; cbn [negb].
    + exists 0%nat, Submitted. stop_here. done.
    + destruct (bool_decide (status_code (server k) ∈ retry_codes)) eqn:Hr;
        [destruct (Z.leb_spec ct 64) as [Hle|Hgt]|]; cbn [andb].
      * (* a retry: sleep, double, and run the rest of the loop *)
        apply bool_decide_eq_true in Hr.
        destruct (IH (S k) (ct * 2)%Z (Sleep ct :: Post :: trace))
          as (n & out & Hrun & Hn & Hsl & Hcodes & Hout).
        { lia. }
        { rewrite Nat2Z.inj_succ, Z.pow_succ_r in Hfuel by lia. lia. }
        exists (S n), out. rewrite Hrun. cbn [doubling rev].
        replace (2 * ct)%Z with (ct * 2)%Z by lia.
        rewrite rounds_cons, <- !app_assoc. cbn [app].
        split; [done|]. split; [lia|]. split; [|split].
        -- intros t [->|Ht]%elem_of_cons; auto.
        -- intros [|i] Hi; [by rewrite Nat.add_0_r|].
           replace (k + S i)%nat with (S k + i)%nat by lia. apply Hcodes. lia.
        -- replace (k + S n)%nat with (S k + n)%nat by lia.
           destruct out as [|r]; [done|].
           destruct Hout as (-> & Hnc & Hor). repeat split; [done|].
           destruct Hor as [?|Hover]; [by left | right].
           rewrite Nat2Z.inj_succ, Z.pow_succ_r by lia. lia.
      * exists 0%nat, (ServerError (server k)). stop_here.
        repeat split; [done|]. right. rewrite Z.pow_0_r. lia.
      * apply bool_decide_eq_false in Hr.
        exists 0%nat, (ServerError (server k)). stop_here.
        repeat split; [done|]. by left.
Qed.

(** Sleeps that start at 2, double and stay within 64 are the first entries
    of [backoff]. *)
Lemma doubling_backoff (n : nat) :
  (forall t, t ∈ doubling 2 n -> (t <= 64)%Z) ->
  (n <= 6)%nat /\ doubling 2 n = take n backoff.
Proof.
  intros H. assert (Hn : (n <= 6)%nat).
  { destruct (le_lt_dec n 6) as [|Hgt]; [done|]. exfalso.
    do 7 (destruct n as [|n]; [lia|]).
    specialize (H 128%Z). cbn [doubling] in H.
    assert (128 <= 64)%Z; [|lia]. apply H.
    do 6 apply list_elem_of_further. apply list_elem_of_here. }
  split; [done|].
  do 7 (destruct n as [|n]; [reflexivity|]). lia.
Qed.

Lemma total_sleep_backoff (n : nat) :
  (n <= 6)%nat -> (total_sleep (rounds (take n backoff)) <= 126)%Z.
Proof.
  intros Hn. unfold total_sleep. rewrite sleeps_rounds.
  do 7 (destruct n as [|n]; [vm_compute; discriminate|]). lia.
Qed.

End CollectorFacts.

(** C9. The POST loop of [submit], started with a sleep of 2 seconds, ends
    whatever the server answers, within 7 POSTs.  It makes [n] retries,
    at most 6; retry [i] follows a response whose status is 500, 502, 503 or
    504 and sleeps for entry [i] of 2, 4, 8, 16, 32, 64 seconds, at most 126
    seconds in all.  The loop ends with success when response [n] has the
    status [created]; otherwise it raises the server error of response [n],
    whose status is not among the retry codes, or which follows the sixth
    retry. *)
Theorem C9_post_loop_retry_policy
    (server : nat -> Collector.response) (fuel : nat) :
  (7 <= fuel)%nat ->
  exists (n : nat) (out : Collector.outcome) (tr : list Collector.event),
    Collector.submit_loop fuel server = Some (out, tr) /\
    (n <= 6)%nat /\
    tr = Collector.rounds (take n Collector.backoff) /\
    Collector.sleeps tr = take n Collector.backoff /\
    Collector.posts tr = S n /\
    (Collector.total_sleep tr <= 126)%Z /\
    (forall i, (i < n)%nat ->
               Collector.status_code (server i) ∈ Collector.retry_codes) /\
    match out with
    | Collector.Submitted =>
        Collector.status_code (server n) = Collector.created
    | Collector.ServerError r =>
        r = server n /\
        Collector.status_code r <> Collector.created /\
        (Collector.status_code r ∉ Collector.retry_codes \/ n = 6%nat)
    end.
Proof.
  intros Hfuel. destruct fuel as [|f]; [lia|].
  destruct (post_loop_run server f 0 2 []) as (n & out & Hrun & _ & Hsl & Hcodes & Hout).
  { lia. }
  { assert (2 ^ 6 <= 2 ^ Z.of_nat f)%Z by (apply Z.pow_le_mono_r; lia). lia. }
  apply doubling_backoff in Hsl as [Hn Hd]. rewrite Hd in Hrun.
  exists n, out, (Collector.rounds (take n Collector.backoff)).
  split; [exact Hrun|]. split; [done|]. split; [done|].
  split; [apply sleeps_rounds|]. split.
  { rewrite posts_rounds, length_take. unfold Collector.backoff. simpl. lia. }
  split; [by apply total_sleep_backoff|]. split; [exact Hcodes|].
  destruct out as [|r]; [exact Hout|].
  destruct Hout as (-> & Hnc & Hor). repeat split; [done|].
  destruct Hor as [?|Hover]; [by left | right].
  destruct (decide (n = 6%nat)) as [|Hne]; [done|]. exfalso.
  assert (2 ^ Z.of_nat n <= 2 ^ 5)%Z by (apply Z.pow_le_mono_r; lia). lia.
Qed.

Lemma C9_witness :
  (7 <= 7)%nat /\
  exists (n : nat) (out : Collector.outcome) (tr : list Collector.event),
    Collector.submit_loop 7 (Collector.scripted [500; 503]%Z) = Some (out, tr) /\
    (n <= 6)%nat /\
    tr = Collector.rounds (take n Collector.backoff) /\
    Collector.sleeps tr = take n Collector.backoff /\
    Collector.posts tr = S n /\
    (Collector.total_sleep tr <= 126)%Z /\
    (forall i, (i < n)%nat ->
               Collector.status_code (Collector.scripted [500; 503]%Z i)
               ∈ Collector.retry_codes) /\
    match out with
    | Collector.Submitted =>
        Collector.status_code (Collector.scripted [500; 503]%Z n) = Collector.created
    | Collector.ServerError r =>
        r = Collector.scripted [500; 503]%Z n /\
        Collector.status_code r <> Collector.created /\
        (Collector.status_code r ∉ Collector.retry_codes \/ n = 6%nat)
    end.
Proof.
  split; [lia|].
  apply (C9_post_loop_retry_policy (Collector.scripted [500; 503]%Z) 7). lia.
Defined.

(** * Further properties of the matchers *)

Section StringMatchMore.
Context {E : ReEngine}.
Import StringMatch.

Lemma compile_value_inv (v : option string) (sm : t) :
  compile_value v = Ok sm ->
  exists p c, v = Some p /\ re_compile p = inr c /\
              sm = {| isPCRE := true; compiledValue := Some c; value := Some p |}.
Proof.
  unfold compile_value. destruct v as [p|]; [|discriminate].
  destruct (re_compile p) as [e|c] eqn:Hc; [discriminate|].
  intros [= <-]. eauto.
Qed.

(** X1. The text that [__repr__] gives for a predicate built from a string
    builds the same predicate again, and it is the string itself, except
    for the one-byte string of a slash. *)
Theorem X1_repr_rebuilds_predicate (s : string) (sm : t) :
  init (DStr s) = Ok sm ->
  exists r, repr sm = Ok r /\ init (DStr r) = Ok sm /\ (s <> "/" -> r = s).
Proof.
  intros Hinit.
  destruct (startswith s "/" && endswith s "/") eqn:Hd.
  - pose proof Hinit as Hc. unfold init in Hc. rewrite Hd in Hc.
    apply compile_value_inv in Hc as (p & c & [= Hp] & Hcomp & ->).
    exists ("/" +:+ p +:+ "/"). split; [done|]. split.
    + rewrite init_delimited. unfold compile_value. by rewrite Hcomp.
    + intros Hne. apply delimited_iff in Hd as [->|[q ->]]; [done|].
      rewrite slice_delimited in Hp. by subst.
  - rewrite init_literal in Hinit by done. injection Hinit as <-.
    exists s. split; [done|]. split; [by apply init_literal | done].
Qed.


(** X3. A structured descriptor whose match type is [pcre], in any case of
    the letters, builds what the short form between slashes builds. *)
Theorem X3_structured_pcre_is_short_form
    (o : gmap string JSONHelper.jval) (p m : string) :
  o !! "value" = Some (JSONHelper.JStr p) ->
  o !! "matchType" = Some (JSONHelper.JStr m) ->
  lower m = "pcre" ->
  init (DObj o) = init (DStr ("/" +:+ p +:+ "/")).
Proof.
  intros Hv Hm Hl. rewrite init_delimited.
  unfold init, JSONHelper.getStringChecked, mbind, result_bind.
  by rewrite Hv, Hm, Hl.
Qed.

(** X21. Among the predicates built from strings, [__repr__] tells the
    predicates apart: two of them with the same text are the same
    predicate. *)
Theorem X21_repr_is_injective (s1 s2 : string) (sm1 sm2 : t) :
  init (DStr s1) = Ok sm1 -> init (DStr s2) = Ok sm2 ->
  repr sm1 = repr sm2 -> sm1 = sm2.
Proof.
  intros H1 H2 Hr.
  assert (Hback : forall s sm, init (DStr s) = Ok sm ->
                    exists r, repr sm = Ok r /\ init (DStr r) = Ok sm).
  { intros s sm Hinit. destruct (startswith s "/" && endswith s "/") eqn:Hd.
    - unfold init in Hinit. rewrite Hd in Hinit.
      apply compile_value_inv in Hinit as (p & c & _ & Hcomp & ->).
      exists ("/" +:+ p +:+ "/"). split; [done|].
      rewrite init_delimited. unfold compile_value. by rewrite Hcomp.
    - rewrite init_literal in Hinit by done. injection Hinit as <-.
      exists s. split; [done | by apply init_literal]. }
  destruct (Hback _ _ H1) as (r1 & Hr1 & Hi1).
  destruct (Hback _ _ H2) as (r2 & Hr2 & Hi2).
  rewrite Hr1, Hr2 in Hr. injection Hr as ->. congruence.
Qed.

End StringMatchMore.

Lemma X1_witness :
  exists (sm : @StringMatch.t Sre.engine) r,
    StringMatch.init (StringMatch.DStr "/ab*/") = Ok sm /\
    StringMatch.repr sm = Ok r /\
    StringMatch.init (StringMatch.DStr r) = Ok sm /\
    ("/ab*/" <> "/" -> r = "/ab*/").
Proof.
  eexists.
  destruct (@X1_repr_rebuilds_predicate Sre.engine "/ab*/" _ eq_refl)
    as (r & Hr & Hi & Hs).
  exists r. split; [reflexivity|]. split; [exact Hr|]. split; [exact Hi | exact Hs].
Defined.

Lemma X3_witness :
  (<["value" := JSONHelper.JStr "a+"]>
     (<["matchType" := JSONHelper.JStr "PCRE"]> (∅ : gmap string JSONHelper.jval)))
    !! "value" = Some (JSONHelper.JStr "a+") /\
  lower "PCRE" = "pcre" /\
  @StringMatch.init Sre.engine
    (StringMatch.DObj (<["value" := JSONHelper.JStr "a+"]>
                         (<["matchType" := JSONHelper.JStr "PCRE"]> ∅)))
  = StringMatch.init (StringMatch.DStr ("/" +:+ "a+" +:+ "/")).
Proof.
  split; [reflexivity|]. split; [reflexivity|].
  apply (@X3_structured_pcre_is_short_form Sre.engine _ "a+" "PCRE"); reflexivity.
Defined.

Section NumberMatchMore.
Import NumberMatch.

Lemma long16_0x (h : string) :
  all_hex h = true -> h <> "" -> long16 ("0x" +:+ h) = Some (hex_value h).
Proof.
  intros Hh Hne. unfold long16. rewrite !append_cons, append_nil_l.
  change (skip_ws (String "0" (String "x" h))) with (String "0" (String "x" h)).
  cbn [read_sign].
  change (skip_ws (String "0" (String "x" h))) with (String "0" (String "x" h)).
  change (skip_0x (String "0" (String "x" h))) with h.
  rewrite read_hex_all_hex by done. destruct h as [|c h]; [done|].
  cbn [String.length Nat.add Nat.eqb skip_L skip_ws]. f_equal; lia.
Qed.

(** An operator token, blanks and a word: the word is read as the number. *)
Lemma init_operator (tok ws r : string) (mt : option NumberMatchType) :
  tok <> "" -> no_space tok = true -> parse_matchType tok = Ok mt ->
  ws <> "" -> all_space ws = true ->
  r <> "" -> no_space r = true ->
  init (DStr (tok +:+ ws +:+ r)) = read_number mt r.
Proof.
  intros Htok Hns Hmt Hws Hsp Hr Hnr.
  rewrite (NumberMatch_init_two _ tok r) by (by apply split1_two).
  by rewrite Hmt.
Qed.

Lemma init_word (r : string) :
  r <> "" -> no_space r = true -> init (DStr r) = read_number None r.
Proof. intros Hr Hnr. apply NumberMatch_init_one. by apply split1_one. Qed.

(** X4. A string of hexadecimal digits alone builds the predicate of
    equality with the value of the digits.  The integer of that value
    builds the same predicate as long as it is an [int], that is, at most
    [sys.maxint]; beyond, the integer is a [long] and the constructor
    refuses it. *)
Theorem X4_digits_alone_mean_equality (h : string) :
  h <> "" -> all_hex h = true ->
  init (DStr h) = Ok (mk None (Some (hex_value h))) /\
  ((hex_value h <= maxint)%Z -> init (DInt (hex_value h)) = init (DStr h)) /\
  ((maxint < hex_value h)%Z ->
   init (DInt (hex_value h))
   = Raise (RuntimeError "Invalid type <type 'long'> in NumberMatch.")).
Proof.
  intros Hne Hh.
  assert (Hs : init (DStr h) = Ok (mk None (Some (hex_value h)))).
  { rewrite init_word by auto using all_hex_no_space.
    unfold read_number. by rewrite long16_all_hex. }
  assert (Hpos : (0 <= hex_value h)%Z).
  { pose proof (long16_all_hex h Hh Hne) as Hl.
    destruct (Z.lt_ge_cases (hex_value h) 0) as [Hneg|]; [|done].
    apply (long16_negative h _ Hl) in Hneg.
    apply contains_iff in Hneg as (l & r & ->).
    exfalso. clear -Hh. induction l as [|c l IH].
    - by rewrite append_nil_l, append_cons in Hh.
    - rewrite append_cons in Hh. cbn [all_hex] in Hh.
      destruct (hex_digit c); [auto | discriminate]. }
  split; [exact Hs|]. rewrite Hs. unfold init, maxint in *. split; intros Hm.
  - destruct (Z.leb_spec (- (2 ^ 63 - 1) - 1) (hex_value h)); [|lia].
    by destruct (Z.leb_spec (hex_value h) (2 ^ 63 - 1)); [|lia].
  - destruct (Z.leb_spec (hex_value h) (2 ^ 63 - 1)); [lia|].
    by rewrite andb_false_r.
Qed.

(** X5. The prefix [0x] before the digits changes nothing, with an operator
    token or without. *)
Theorem X5_prefix_0x_is_ignored (h : string) :
  h <> "" -> all_hex h = true ->
  init (DStr ("0x" +:+ h)) = init (DStr h) /\
  forall tok ws : string,
    tok ∈ operator_tokens -> ws <> "" -> all_space ws = true ->
    init (DStr (tok +:+ ws +:+ "0x" +:+ h)) = init (DStr (tok +:+ ws +:+ h)).
Proof.
  intros Hne Hh.
  assert (Hns : no_space h = true) by by apply all_hex_no_space.
  assert (Hns' : no_space ("0x" +:+ h) = true).
  { rewrite !append_cons, append_nil_l. cbn [no_space]. by rewrite Hns. }
  assert (Hne' : "0x" +:+ h <> "") by (rewrite append_cons; discriminate).
  assert (Hread : forall mt, read_number mt ("0x" +:+ h) = read_number mt h).
  { intros mt. unfold read_number. by rewrite long16_0x, long16_all_hex. }
  split.
  - by rewrite !init_word, Hread.
  - intros tok ws Htok Hws Hsp.
    destruct (operator_token_no_space tok Htok) as [Ht Hnt].
    destruct (parse_matchType_known tok Htok) as [mt Hmt].
    rewrite (init_operator tok ws ("0x" +:+ h) mt) by done.
    by rewrite (init_operator tok ws h mt), Hread.
Qed.

Lemma hex_digit_lower (c : ascii) (d : Z) :
  hex_digit c = Some d -> hex_digit (lower_char c) = Some d.
Proof.
  destruct c as [[] [] [] [] [] [] [] []]; vm_compute; intros [= <-]; done.
Qed.

Lemma lower_hex (h : string) :
  all_hex h = true ->
  all_hex (lower h) = true /\ hex_value (lower h) = hex_value h /\
  String.length (lower h) = String.length h.
Proof.
  induction h as [|c h IH]; [done|]. cbn [all_hex lower hex_value String.length].
  destruct (hex_digit c) as [d|] eqn:Hd; [|discriminate].
  intros (Hl & Hv & Hlen)%IH. rewrite (hex_digit_lower c d Hd), Hv, Hlen. done.
Qed.

(** X6. The case of the hexadecimal digits does not matter: the digits in
    lower case build the same predicate. *)
Theorem X6_digits_case_insensitive (h : string) :
  h <> "" -> all_hex h = true ->
  init (DStr (lower h)) = init (DStr h).
Proof.
  intros Hne Hh. destruct (lower_hex h Hh) as (Hl & Hv & Hlen).
  assert (lower h <> "") by (destruct h; [done | discriminate]).
  rewrite !init_word by auto using all_hex_no_space.
  unfold read_number. by rewrite !long16_all_hex, Hv.
Qed.

Lemma skip_ws_nil_iff (s : string) : skip_ws s = "" <-> all_space s = true.
Proof.
  induction s as [|c s IH]; [done|]. cbn [skip_ws all_space].
  destruct (isspace c); [done|]. split; discriminate.
Qed.

Lemma split1_nil_iff (s : string) : split1 s = [] <-> all_space s = true.
Proof.
  rewrite <- skip_ws_nil_iff. unfold split1.
  destruct (skip_ws s) as [|c u]; [done|].
  destruct (take_word (String c u)) as [w r].
  destruct (skip_ws r); split; discriminate.
Qed.

Lemma read_number_not_IndexError mt (number : string) :
  read_number mt number <> Raise IndexError.
Proof. unfold read_number. destruct (long16 number); discriminate. Qed.

(** X7. The constructor lets an [IndexError] escape exactly on a string
    that is not empty and holds blanks only; no other string does that. *)
Theorem X7_blank_string_raises_IndexError (s : string) :
  init (DStr s) = Raise IndexError <-> s <> "" /\ all_space s = true.
Proof.
  destruct s as [|c s]; [split; [discriminate | by intros [? _]]|].
  rewrite <- split1_nil_iff.
  pose proof (split1_length (String c s)) as Hlen.
  destruct (split1 (String c s)) as [|t [|number [|? ?]]] eqn:Hs;
    [| | |simpl in Hlen; lia].
  - rewrite NumberMatch_init_none by done. done.
  - rewrite (NumberMatch_init_one _ _ Hs).
    split; [by intros ?%read_number_not_IndexError | by intros [_ ?]].
  - rewrite (NumberMatch_init_two _ _ _ Hs). unfold mbind, result_bind.
    split; [|by intros [_ ?]].
    unfold parse_matchType.
    repeat (match goal with |- context [String.eqb ?a ?b] => destruct (String.eqb a b) end);
      solve [discriminate | by intros ?%read_number_not_IndexError].
Qed.

Lemma long16_operator_first (tok r : string) :
  tok ∈ operator_tokens -> long16 (tok +:+ r) = None.
Proof.
  unfold operator_tokens. rewrite !elem_of_cons, elem_of_nil.
  intros [->|[->|[->|[->|[->|[]]]]]]; reflexivity.
Qed.

(** X8. An operator token must be followed by a blank: a token that runs
    into the text after it is read as a number, and the constructor fails
    naming the whole word. *)
Theorem X8_operator_needs_blank (tok r : string) :
  tok ∈ operator_tokens -> no_space r = true ->
  init (DStr (tok +:+ r)) = Raise (InvalidNumberError (tok +:+ r)).
Proof.
  intros Htok Hr. destruct (operator_token_no_space tok Htok) as [Hne Hns].
  assert (Hns' : no_space (tok +:+ r) = true).
  { clear Htok Hne. induction tok as [|c tok IH]; [done|].
    rewrite append_cons. cbn [no_space] in *.
    apply andb_true_iff in Hns as [-> Hns]. by apply IH. }
  assert (Hne' : tok +:+ r <> "").
  { destruct tok; [done | rewrite append_cons; discriminate]. }
  rewrite init_word by done. unfold read_number.
  by rewrite long16_operator_first.
Qed.

(** X9. On every integer candidate the predicate of [<] and that of [>=]
    with the same digits give opposite answers, and so do those of [<=]
    and [>]; on the absent candidate all four answer [False]. *)
Theorem X9_orderings_are_complementary (ws h : string) :
  ws <> "" -> all_space ws = true -> h <> "" -> all_hex h = true ->
  exists lt ge le gt : t,
    init (DStr ("<" +:+ ws +:+ h)) = Ok lt /\
    init (DStr (">=" +:+ ws +:+ h)) = Ok ge /\
    init (DStr ("<=" +:+ ws +:+ h)) = Ok le /\
    init (DStr (">" +:+ ws +:+ h)) = Ok gt /\
    (forall c : Z, exists b b' : bool,
        matches lt (Some c) = Ok b /\ matches ge (Some c) = Ok (negb b) /\
        matches le (Some c) = Ok b' /\ matches gt (Some c) = Ok (negb b')) /\
    matches lt None = Ok false /\ matches ge None = Ok false /\
    matches le None = Ok false /\ matches gt None = Ok false.
Proof.
  intros Hws Hsp Hne Hh.
  assert (Hns : no_space h = true) by by apply all_hex_no_space.
  assert (Hinit : forall tok mt,
    tok <> "" -> no_space tok = true -> parse_matchType tok = Ok mt ->
    init (DStr (tok +:+ ws +:+ h)) = Ok (mk mt (Some (hex_value h)))).
  { intros tok mt ? ? Hmt. rewrite (init_operator tok ws h mt) by done.
    unfold read_number. by rewrite long16_all_hex. }
  exists (mk (Some LT) (Some (hex_value h))), (mk (Some GE) (Some (hex_value h))),
         (mk (Some LE) (Some (hex_value h))), (mk (Some GT) (Some (hex_value h))).
  do 4 (split; [by apply Hinit|]).
  split; [|done].
  intros c. exists (c <? hex_value h)%Z, (c <=? hex_value h)%Z.
  unfold matches; simpl. repeat split; f_equal.
  - rewrite Z.geb_leb. lia.
  - rewrite Z.gtb_ltb. lia.
Qed.

(** X22. The constructor fails on a string in three ways only: with the
    [IndexError] of the empty split, with the unknown-operator error, or
    with the invalid-number error.  On an [int], an integer from
    [-sys.maxint - 1] to [sys.maxint], it does not fail; on a [long], which
    every integer outside that range is, it fails with the invalid-type
    error. *)
Theorem X22_failures_of_the_constructor :
  (forall (s : string) (e : exn),
      init (DStr s) = Raise e ->
      e = IndexError \/
      (exists tok, e = UnknownOperatorError tok) \/
      (exists number, e = InvalidNumberError number)) /\
  (forall z : Z,
      if bool_decide (- maxint - 1 <= z <= maxint)%Z
      then init (DInt z) = Ok (mk None (Some z))
      else init (DInt z)
           = Raise (RuntimeError "Invalid type <type 'long'> in NumberMatch.")) /\
  (forall z : Z,
      init (DLong z)
      = Raise (RuntimeError "Invalid type <type 'long'> in NumberMatch.")).
Proof.
  split; [|split; [|done]].
  2:{ intros z. unfold init.
      destruct (Z.leb_spec (- maxint - 1) z), (Z.leb_spec z maxint);
        case_bool_decide; (done || lia). }
  assert (Hread : forall mt number e,
    read_number mt number = Raise e -> e = InvalidNumberError number).
  { intros mt number e. unfold read_number.
    destruct (long16 number); [discriminate | by intros [= <-]]. }
  intros s e. destruct s as [|c s]; [discriminate|].
  pose proof (split1_length (String c s)) as Hlen.
  destruct (split1 (String c s)) as [|t [|number [|? ?]]] eqn:Hs;
    [| | |simpl in Hlen; lia].
  - rewrite NumberMatch_init_none by done. intros [= <-]. by left.
  - rewrite (NumberMatch_init_one _ _ Hs). intros ->%Hread. right. right. eauto.
  - rewrite (NumberMatch_init_two _ _ _ Hs). unfold mbind, result_bind.
    destruct (decide (t ∈ operator_tokens)) as [Hin|Hnin].
    + destruct (parse_matchType_known t Hin) as [mt ->].
      intros ->%Hread. right. right. eauto.
    + rewrite parse_matchType_unknown by done. intros [= <-]. right. left. eauto.
Qed.

End NumberMatchMore.

Lemma X4_witness :
  "1f" <> "" /\ all_hex "1f" = true /\
  NumberMatch.init (NumberMatch.DStr "1f")
  = Ok (NumberMatch.mk None (Some (hex_value "1f"))) /\
  NumberMatch.init (NumberMatch.DInt (hex_value "1f"))
  = NumberMatch.init (NumberMatch.DStr "1f") /\
  "8000000000000000" <> "" /\ all_hex "8000000000000000" = true /\
  NumberMatch.init (NumberMatch.DInt (hex_value "8000000000000000"))
  = Raise (RuntimeError "Invalid type <type 'long'> in NumberMatch.").
Proof.
  assert (H1 : "1f" <> "") by discriminate.
  assert (H2 : all_hex "1f" = true) by reflexivity.
  assert (H3 : "8000000000000000" <> "") by discriminate.
  assert (H4 : all_hex "8000000000000000" = true) by reflexivity.
  split; [exact H1|]. split; [exact H2|].
  split; [exact (proj1 (X4_digits_alone_mean_equality "1f" H1 H2))|].
  split.
  { apply (proj1 (proj2 (X4_digits_alone_mean_equality "1f" H1 H2))).
    vm_compute. discriminate. }
  split; [exact H3|]. split; [exact H4|].
  apply (proj2 (proj2 (X4_digits_alone_mean_equality "8000000000000000" H3 H4))).
  vm_compute. reflexivity.
Defined.

Lemma X5_witness :
  "1f" <> "" /\ all_hex "1f" = true /\
  NumberMatch.init (NumberMatch.DStr "0x1f") = NumberMatch.init (NumberMatch.DStr "1f").
Proof.
  assert (H1 : "1f" <> "") by discriminate.
  assert (H2 : all_hex "1f" = true) by reflexivity.
  split; [exact H1|]. split; [exact H2|].
  exact (proj1 (X5_prefix_0x_is_ignored "1f" H1 H2)).
Defined.

Lemma X6_witness :
  "7FFF" <> "" /\ all_hex "7FFF" = true /\
  NumberMatch.init (NumberMatch.DStr "7fff") = NumberMatch.init (NumberMatch.DStr "7FFF").
Proof.
  assert (H1 : "7FFF" <> "") by discriminate.
  assert (H2 : all_hex "7FFF" = true) by reflexivity.
  split; [exact H1|]. split; [exact H2|].
  exact (X6_digits_case_insensitive "7FFF" H1 H2).
Defined.

Lemma X8_witness :
  "<=" ∈ NumberMatch.operator_tokens /\ no_space "10" = true /\
  NumberMatch.init (NumberMatch.DStr "<=10") = Raise (InvalidNumberError "<=10").
Proof.
  assert (H1 : "<=" ∈ NumberMatch.operator_tokens).
  { unfold NumberMatch.operator_tokens.
    apply list_elem_of_further, list_elem_of_further, list_elem_of_here. }
  assert (H2 : no_space "10" = true) by reflexivity.
  split; [exact H1|]. split; [exact H2|].
  exact (X8_operator_needs_blank "<=" "10" H1 H2).
Defined.

Lemma X9_witness :
  exists lt ge : NumberMatch.t,
    NumberMatch.init (NumberMatch.DStr "< 10") = Ok lt /\
    NumberMatch.init (NumberMatch.DStr ">= 10") = Ok ge /\
    exists b, NumberMatch.matches lt (Some 16%Z) = Ok b /\
              NumberMatch.matches ge (Some 16%Z) = Ok (negb b).
Proof.
  assert (H1 : " " <> "") by discriminate.
  assert (H2 : all_space " " = true) by reflexivity.
  assert (H3 : "10" <> "") by discriminate.
  assert (H4 : all_hex "10" = true) by reflexivity.
  destruct (X9_orderings_are_complementary " " "10" H1 H2 H3 H4)
    as (lt & ge & le & gt & Hlt & Hge & _ & _ & Hc & _).
  destruct (Hc 16%Z) as (b & b' & Hb & Hb' & _).
  exists lt, ge. split; [exact Hlt|]. split; [exact Hge|].
  exists b. split; [exact Hb | exact Hb'].
Defined.

(** * Properties of the collector *)

Section GuardFacts.
Import Collector.

(** X10. The guard [remote_checks] lets a call through exactly when the
    host and the tool are set to strings that are not empty.  It never asks
    for the authentication token: a collector without one passes, and the
    message about the token is never raised. *)
Theorem X10_remote_checks_ignore_the_token (self : t) :
  (remote_checks (fun _ => Ok tt) self = Ok tt <->
   truthy (serverHost self) = true /\ truthy (tool self) = true) /\
  (forall (A : Type) (f : t -> result A),
      truthy (serverHost self) = true -> truthy (tool self) = true ->
      remote_checks f self = f self) /\
  remote_checks (fun _ => Ok tt) self
  <> Raise (RuntimeError "Must specify serverAuthToken (configuration property: serverauthtoken) to use remote features.").
Proof.
  unfold remote_checks.
  destruct (truthy (serverHost self)), (truthy (tool self)); simpl;
    repeat split; try done; try (by intros [? ?]).
Qed.

(** X11. The body of [refresh] runs exactly when the host, the tool and the
    directory of the signatures are set; when the host is missing, the
    failure names the host, whatever else is missing, and the directory is
    asked for last. *)
Theorem X11_refresh_guard_order (self : t) :
  (refresh (fun _ => Ok tt) self = Ok tt <->
   truthy (serverHost self) = true /\ truthy (tool self) = true /\
   truthy (sigCacheDir self) = true) /\
  (truthy (serverHost self) = false ->
   forall (A : Type) (body : t -> result A),
     refresh body self
     = Raise (RuntimeError "Must specify serverHost (configuration property: serverhost) to use remote features.")) /\
  (truthy (serverHost self) = true -> truthy (tool self) = true ->
   truthy (sigCacheDir self) = false ->
   forall (A : Type) (body : t -> result A),
     refresh body self
     = Raise (RuntimeError "Must specify sigCacheDir (configuration property: sigdir) to use signatures.")).
Proof.
  unfold refresh, remote_checks, signature_checks.
  destruct (truthy (serverHost self)), (truthy (tool self)),
    (truthy (sigCacheDir self)); simpl;
    repeat split; try done; try (by intros (? & ? & ?)).
Qed.

End GuardFacts.

Section InitFacts.
Import Collector.
Variable globalConfig : option (gmap string string).
Variable py_int : string -> option Z.
Variable read_file : string -> option string.
Variable node : string.

Lemma port_of_config_given (v : Z) (gc : gmap string string) :
  port_of_config py_int (Some v) gc = inr (Some v).
Proof. reflexivity. Qed.

Lemma defaults_keep (self : t) :
  let c := defaults node self in
  sigCacheDir c = sigCacheDir self /\ serverHost c = serverHost self /\
  serverAuthToken c = serverAuthToken self /\ tool c = tool self /\
  (forall v, serverPort self = Some v -> serverPort c = Some v) /\
  (forall v, serverProtocol self = Some v -> serverProtocol c = Some v) /\
  (forall v, clientId self = Some v -> clientId c = Some v).
Proof.
  simpl. repeat split; try done.
  - by intros v ->.
  - by intros v ->.
  - intros v ->. by destruct (serverHost self).
Qed.

(** X12. An argument given to the constructor is kept: the configuration
    file and the defaults only fill the attributes that were left out. *)
Theorem X12_given_arguments_are_kept (args c : t) :
  Collector.init globalConfig py_int read_file node args = inr c ->
  (forall v, sigCacheDir args = Some v -> sigCacheDir c = Some v) /\
  (forall v, serverHost args = Some v -> serverHost c = Some v) /\
  (forall v, serverPort args = Some v -> serverPort c = Some v) /\
  (forall v, serverProtocol args = Some v -> serverProtocol c = Some v) /\
  (forall v, serverAuthToken args = Some v -> serverAuthToken c = Some v) /\
  (forall v, clientId args = Some v -> clientId c = Some v) /\
  (forall v, tool args = Some v -> tool c = Some v).
Proof.
  unfold Collector.init. destruct globalConfig as [gc|].
  - unfold read_config.
    destruct (port_of_config py_int (serverPort args) gc) as [|port] eqn:Hport;
      [discriminate|].
    destruct (token_of_config read_file (serverAuthToken args) gc) as [|token] eqn:Htok;
      [discriminate|].
    intros [= <-].
    match goal with |- context [defaults node ?s] =>
      destruct (defaults_keep s) as (-> & -> & -> & -> & Hp & Hpr & Hc) end.
    simpl in *. repeat split; intros v Hv.
    + by rewrite Hv.
    + by rewrite Hv.
    + apply Hp. rewrite Hv in Hport. by injection Hport as <-.
    + apply Hpr. by rewrite Hv.
    + rewrite Hv in Htok. by injection Htok as <-.
    + apply Hc. by rewrite Hv.
    + by rewrite Hv.
  - intros [= <-].
    destruct (defaults_keep args) as (-> & -> & -> & -> & Hp & Hpr & Hc).
    repeat split; auto.
Qed.

(** X13. A collector that the constructor returns has a protocol and a
    port, and a client name whenever it has a host.  When neither the
    arguments nor the configuration file give a port, the port is 433 for
    the protocol [https] and 80 for any other; when they give no protocol
    either, the protocol is [https]. *)
Theorem X13_defaults_are_filled (args c : t) :
  Collector.init globalConfig py_int read_file node args = inr c ->
  serverProtocol c <> None /\
  serverPort c <> None /\
  (serverHost c <> None -> clientId c <> None) /\
  (serverPort args = None ->
   (forall gc, globalConfig = Some gc -> gc !! "serverport" = None) ->
   serverPort c
   = Some (if bool_decide (serverProtocol c = Some "https") then 433 else 80)%Z) /\
  (serverProtocol args = None ->
   (forall gc, globalConfig = Some gc -> gc !! "serverproto" = None) ->
   serverProtocol c = Some "https").
Proof.
  intros Hinit.
  assert (Hd : exists self,
    c = defaults node self /\
    (serverPort args = None ->
     (forall gc, globalConfig = Some gc -> gc !! "serverport" = None) ->
     serverPort self = None) /\
    (serverProtocol args = None ->
     (forall gc, globalConfig = Some gc -> gc !! "serverproto" = None) ->
     serverProtocol self = None)).
  { unfold Collector.init in Hinit. destruct globalConfig as [gc|].
    - unfold read_config in Hinit.
      destruct (port_of_config py_int (serverPort args) gc) as [|port] eqn:Hport;
        [discriminate|].
      destruct (token_of_config read_file (serverAuthToken args) gc) as [|token];
        [discriminate|].
      injection Hinit as <-. eexists. split; [reflexivity|]. simpl. split.
      + intros Ha Hgc. unfold port_of_config in Hport.
        rewrite Ha, (Hgc gc eq_refl) in Hport. by injection Hport as <-.
      + intros Ha Hgc. rewrite Ha. exact (Hgc gc eq_refl).
    - injection Hinit as <-. exists args. auto. }
  destruct Hd as (self & -> & Hport & Hproto). simpl.
  repeat split.
  - by destruct (serverProtocol self).
  - destruct (serverPort self); [done|]. by destruct (bool_decide _).
  - destruct (serverHost self), (clientId self); done.
  - intros Ha Hgc. rewrite (Hport Ha Hgc). by destruct (bool_decide _).
  - intros Ha Hgc. by rewrite (Hproto Ha Hgc).
Qed.

(** X14. The constructor fails only while it reads the configuration file:
    with [ValueError] when the port is left out and the text of the file
    for it is not a number; with [IOError] when that did not happen, the
    token is left out, the file names no token but a file of the token, and
    this file cannot be read. *)
Theorem X14_constructor_failures (args : t) (e : init_exn) :
  Collector.init globalConfig py_int read_file node args = inl e <->
  exists gc, globalConfig = Some gc /\
    ((e = ValueError /\ serverPort args = None /\
      exists p, gc !! "serverport" = Some p /\ py_int p = None) \/
     (e = IOError /\
      (serverPort args = None ->
       forall p, gc !! "serverport" = Some p -> py_int p <> None) /\
      serverAuthToken args = None /\
      gc !! "serverauthtoken" = None /\
      exists path, gc !! "serverauthtokenfile" = Some path /\
                   read_file path = None)).
Proof.
  split.
  - unfold Collector.init. destruct globalConfig as [gc|]; [|discriminate].
    unfold read_config, port_of_config, token_of_config. intros H.
    exists gc. split; [done|].
    destruct (serverPort args) as [port|] eqn:Hport.
    + right. destruct (serverAuthToken args); [discriminate|].
      destruct (gc !! "serverauthtoken"); [discriminate|].
      destruct (gc !! "serverauthtokenfile") as [path|]; [|discriminate].
      destruct (read_file path) eqn:Hr; [discriminate|].
      injection H as <-. repeat split; eauto; try done.
    + destruct (gc !! "serverport") as [p|] eqn:Hp.
      * destruct (py_int p) eqn:Hi.
        -- right. destruct (serverAuthToken args); [discriminate|].
           destruct (gc !! "serverauthtoken"); [discriminate|].
           destruct (gc !! "serverauthtokenfile") as [path|]; [|discriminate].
           destruct (read_file path) eqn:Hr; [discriminate|].
           injection H as <-. repeat split; eauto. intros _ ? [= <-]. congruence.
        -- left. injection H as <-. eauto.
      * right. destruct (serverAuthToken args); [discriminate|].
        destruct (gc !! "serverauthtoken"); [discriminate|].
        destruct (gc !! "serverauthtokenfile") as [path|]; [|discriminate].
        destruct (read_file path) eqn:Hr; [discriminate|].
        injection H as <-. repeat split; eauto; try done.
  - intros (gc & Hgc & H). unfold Collector.init. rewrite Hgc.
    unfold read_config, port_of_config, token_of_config.
    destruct H as [(-> & -> & p & -> & ->)
                  |(-> & Hport & -> & -> & path & -> & ->)]; [done|].
    destruct (serverPort args) as [port|]; [done|].
    destruct (gc !! "serverport") as [p|]; [|done].
    destruct (py_int p) eqn:Hi; [done|].
    by destruct (Hport eq_refl p eq_refl).
Qed.

End InitFacts.

Lemma X12_witness :
  Collector.init
    (Some (<["serverhost" := "cfg.example"]> (<["serverport" := "8000"]> ∅)))
    (fun _ => Some 8000%Z) (fun _ => None) "fuzzer1"
    (Collector.mk None (Some "arg.example") None None (Some "token") None (Some "tool"))
  = inr (Collector.mk None (Some "arg.example") (Some 8000%Z) (Some "https")
           (Some "token") (Some "fuzzer1") (Some "tool")) /\
  (forall v, Some "arg.example" = Some v ->
             Collector.serverHost
               (Collector.mk None (Some "arg.example") (Some 8000%Z) (Some "https")
                  (Some "token") (Some "fuzzer1") (Some "tool")) = Some v).
Proof.
  assert (Hinit :
    Collector.init
      (Some (<["serverhost" := "cfg.example"]> (<["serverport" := "8000"]> ∅)))
      (fun _ => Some 8000%Z) (fun _ => None) "fuzzer1"
      (Collector.mk None (Some "arg.example") None None (Some "token") None (Some "tool"))
    = inr (Collector.mk None (Some "arg.example") (Some 8000%Z) (Some "https")
             (Some "token") (Some "fuzzer1") (Some "tool"))) by reflexivity.
  split; [exact Hinit|].
  exact (proj1 (proj2 (X12_given_arguments_are_kept _ _ _ _ _ _ Hinit))).
Defined.

Lemma X13_witness :
  Collector.init None (fun _ => None) (fun _ => None) "fuzzer1"
    (Collector.mk None (Some "arg.example") None None None None None)
  = inr (Collector.mk None (Some "arg.example") (Some 433%Z) (Some "https")
           None (Some "fuzzer1") None) /\
  Some "https" <> (None : option string) /\ Some 433%Z <> None.
Proof.
  assert (Hinit :
    Collector.init None (fun _ => None) (fun _ => None) "fuzzer1"
      (Collector.mk None (Some "arg.example") None None None None None)
    = inr (Collector.mk None (Some "arg.example") (Some 433%Z) (Some "https")
             None (Some "fuzzer1") None)) by reflexivity.
  split; [exact Hinit|].
  destruct (X13_defaults_are_filled _ _ _ _ _ _ Hinit) as (Hproto & Hport & _).
  split; [exact Hproto | exact Hport].
Defined.

Section TestcaseFacts.
Import Collector.

Lemma text_byte_iff (c : ascii) :
  existsb (Ascii.eqb c) textBytes = text_byte c.
Proof. destruct c as [[] [] [] [] [] [] [] []]; vm_compute; reflexivity. Qed.

Lemma translate_delete_nil_iff (s : string) :
  translate_delete s textBytes = "" <->
  forall l c r, s = l +:+ String c r -> text_byte c = true.
Proof.
  induction s as [|c s IH]; cbn [translate_delete].
  - split; [|done]. intros _ [|? ?] ? ? H; discriminate.
  - rewrite text_byte_iff. destruct (text_byte c) eqn:Hc.
    + rewrite IH. split.
      * intros H [|d l] c' r Heq.
        -- rewrite append_nil_l in Heq. by injection Heq as <- _.
        -- rewrite append_cons in Heq. injection Heq as _ ->. by apply (H l c' r).
      * intros H l c' r ->. apply (H (String c l) c' r). by rewrite append_cons.
    + split; [discriminate|]. intros H.
      rewrite (H "" c s eq_refl) in Hc. discriminate.
Qed.

(** X15. The content of a test case is taken for binary exactly when it
    holds a byte below 32 other than 7, 8, 9, 10, 12, 13 and 27; the empty
    content is text. *)
Theorem X15_binary_iff_control_byte (input : string) :
  (isBinary input = true <->
   exists l c r, input = l +:+ String c r /\ text_byte c = false) /\
  isBinary "" = false.
Proof.
  split; [|reflexivity]. unfold isBinary. rewrite negb_true_iff.
  destruct (String.eqb_spec (translate_delete input textBytes) "") as [He|Hne].
  - split; [discriminate|]. intros (l & c & r & Heq & Hc).
    rewrite translate_delete_nil_iff in He. by rewrite (He l c r Heq) in Hc.
  - split; [intros _|done].
    induction input as [|c s IH]; [done|]. cbn [translate_delete] in Hne.
    rewrite text_byte_iff in Hne. destruct (text_byte c) eqn:Hc.
    + destruct (IH Hne) as (l & c' & r & -> & Hc').
      exists (String c l), c', r. by rewrite append_cons.
    + by exists "", c, s.
Qed.

Lemma translate_delete_app (a b : string) (d : list ascii) :
  translate_delete (a +:+ b) d = translate_delete a d +:+ translate_delete b d.
Proof.
  induction a as [|c a IH]; [done|]. rewrite append_cons. cbn [translate_delete].
  destruct (existsb _ d); [done|]. by rewrite append_cons, IH.
Qed.

(** X16. Two contents put together are binary exactly when one of them is. *)
Theorem X16_binary_of_concatenation (a b : string) :
  isBinary (a +:+ b) = isBinary a || isBinary b.
Proof.
  unfold isBinary. rewrite translate_delete_app.
  destruct (translate_delete a textBytes) as [|c u]; [done|].
  by rewrite append_cons.
Qed.

End TestcaseFacts.

Section SubmitFacts.
Import Collector.


Context {J Env Args : Type}.
Variable env_truthy : Env -> bool.
Variable args_truthy : Args -> bool.
Variable dumps_metadata : gmap string J -> string.
Variable dumps_env : Env -> string.
Variable dumps_args : Args -> string.
Variable b64encode : string -> string.
Variable splitext : string -> string * string.
Variable linesep : string.
Variable read_file : string -> option string.

Lemma dict_truthy_false (d : option (gmap string J)) :
  dict_truthy J d = false -> default ∅ d = ∅.
Proof.
  destruct d as [m|]; [|done]. simpl. rewrite negb_false_iff.
  by intros ?%bool_decide_eq_true.
Qed.


(** X18. In the metadata that [submit] sends, a key of the caller's
    metadata has the caller's value, and any other key has the value of
    the configuration: the caller wins a conflict and nothing else is
    lost. *)
Theorem X18_caller_metadata_wins
    (config_metadata metaData : option (gmap string J)) (k : string) :
  aggregate J config_metadata metaData !! k
  = match default ∅ metaData !! k with
    | Some v => Some v
    | None => default ∅ config_metadata !! k
    end.
Proof.
  unfold aggregate, update.
  destruct (dict_truthy J metaData) eqn:Hm;
    destruct (dict_truthy J config_metadata) eqn:Hc;
    try rewrite (dict_truthy_false _ Hm); try rewrite (dict_truthy_false _ Hc);
    rewrite ?lookup_union, ?lookup_empty;
    by destruct (default ∅ metaData !! k), (default ∅ config_metadata !! k).
Qed.

Lemma lookup_cond_insert_ne (b : bool) (k j : string) (v : value)
    (m : gmap string value) :
  k <> j -> (if b then <[k := v]> m else m) !! j = m !! j.
Proof. intros Hne. destruct b; [by rewrite lookup_insert_ne | done]. Qed.

Lemma lookup_opt_insert_ne {T : Type} (o : option T) (t : T -> bool)
    (f : T -> value) (k j : string) (m : gmap string value) :
  k <> j ->
  match o with
  | Some e => if t e then <[k := f e]> m else m
  | None => m
  end !! j = m !! j.
Proof.
  intros Hne. destruct o as [e|]; [|done]. by apply lookup_cond_insert_ne.
Qed.

(** Looks a key up through the insertions of [submit_data], down to the
    insertion of that key. *)
Ltac walk :=
  repeat first
    [ rewrite lookup_insert_eq
    | rewrite lookup_insert_ne by done
    | rewrite lookup_cond_insert_ne by done
    | rewrite lookup_opt_insert_ne by done
    | rewrite lookup_empty ].

(** X19. The dictionary that [submit] posts always holds the three raw
    outputs, the platform, the product, the operating system, the client
    and the tool.  The four entries of the test case are there together,
    exactly when a test case is given; the version of the product is there
    exactly when the configuration has one. *)
Theorem X19_posted_keys (self : t) (crashInfo : CrashInfo J Env Args)
    (testCase : option string) (q : Z) (metaData : option (gmap string J))
    (data : gmap string value) :
  submit_data J Env Args env_truthy args_truthy dumps_metadata dumps_env
    dumps_args b64encode splitext linesep read_file self crashInfo testCase q
    metaData = Some data ->
  (forall k, k ∈ ["rawStdout"; "rawStderr"; "rawCrashData"; "platform";
                  "product"; "os"; "client"; "tool"] -> is_Some (data !! k)) /\
  (forall k, k ∈ ["testcase"; "testcase_isbinary"; "testcase_quality";
                  "testcase_ext"] ->
             (is_Some (data !! k) <-> truthy testCase = true)) /\
  (is_Some (data !! "product_version")
   <-> truthy (version _ _ _ (configuration _ _ _ crashInfo)) = true).
Proof.
  unfold submit_data, testcase_data.
  destruct (truthy testCase) eqn:Ht;
    [destruct (read_file (default "" testCase)) as [content|]; [|discriminate]|];
    cbn [read_testcase]; intros [= <-]; (split; [|split]).
  - intros k Hk. rewrite !elem_of_cons, elem_of_nil in Hk.
    destruct Hk as [->|[->|[->|[->|[->|[->|[->|[->|[]]]]]]]]]; walk; eauto.
  - intros k Hk. rewrite !elem_of_cons, elem_of_nil in Hk.
    destruct Hk as [->|[->|[->|[->|[]]]]]; walk; split; eauto.
  - destruct (truthy (version _ _ _ _)); walk; split; eauto; try done;
      try (by intros [? ?]).
  - intros k Hk. rewrite !elem_of_cons, elem_of_nil in Hk.
    destruct Hk as [->|[->|[->|[->|[->|[->|[->|[->|[]]]]]]]]]; walk; eauto.
  - intros k Hk. rewrite !elem_of_cons, elem_of_nil in Hk.
    destruct Hk as [->|[->|[->|[->|[]]]]]; walk; split; try done;
      try (by intros [? ?]).
  - destruct (truthy (version _ _ _ _)); walk; split; eauto; try done;
      try (by intros [? ?]).
Qed.


End SubmitFacts.


Lemma X19_witness :
  exists data : gmap string Collector.value,
    Collector.submit_data nat unit unit (fun _ => true) (fun _ => false)
      (fun _ => "{}") (fun _ => "{}") (fun _ => "[]") (fun s => s)
      (fun p => (p, ".js")) (String "010" "") (fun _ => Some "x = 1;")
      (Collector.mk None (Some "host") None None None (Some "fuzzer1") (Some "tool"))
      {| Collector.rawStdout := ["out"]; Collector.rawStderr := ["a"; "b"];
         Collector.rawCrashData := [];
         Collector.configuration :=
           {| Collector.platform := "x86"; Collector.product := "shell";
              Collector.os := "linux"; Collector.version := None;
              Collector.metadata := None; Collector.env := None;
              Collector.args := None |} |}
      (Some "/tmp/a.js") 0 None = Some data /\
    is_Some (data !! "tool") /\
    (is_Some (data !! "testcase_ext") <-> Collector.truthy (Some "/tmp/a.js") = true) /\
    (is_Some (data !! "product_version") <-> Collector.truthy None = true).
Proof.
  eexists. split; [reflexivity|].
  match goal with
  | |- is_Some (?d !! _) /\ _ =>
      destruct (X19_posted_keys (fun _ : unit => true) (fun _ : unit => false)
                  (fun _ : gmap string nat => "{}") (fun _ => "{}") (fun _ => "[]")
                  (fun s => s) (fun p => (p, ".js")) (String "010" "") (fun _ => Some "x = 1;")
                  (Collector.mk None (Some "host") None None None (Some "fuzzer1") (Some "tool"))
                  {| Collector.rawStdout := ["out"]; Collector.rawStderr := ["a"; "b"];
                     Collector.rawCrashData := [];
                     Collector.configuration :=
                       {| Collector.platform := "x86"; Collector.product := "shell";
                          Collector.os := "linux"; Collector.version := None;
                          Collector.metadata := None; Collector.env := None;
                          Collector.args := None |} |}
                  (Some "/tmp/a.js") 0 None d eq_refl) as (Hm & Ht & Hv)
  end.
  split; [|split; [|exact Hv]].
  - apply Hm. do 7 apply list_elem_of_further. apply list_elem_of_here.
  - apply Ht. do 3 apply list_elem_of_further. apply list_elem_of_here.
Defined.

Lemma X21_witness :
  @StringMatch.init Sre.engine (StringMatch.DStr "/")
  = Ok (@StringMatch.mk Sre.engine true (Some (Sre.Alt Sre.Eps Sre.Void)) (Some "")) /\
  @StringMatch.init Sre.engine (StringMatch.DStr "//")
  = Ok (@StringMatch.mk Sre.engine true (Some (Sre.Alt Sre.Eps Sre.Void)) (Some "")) /\
  @StringMatch.mk Sre.engine true (Some (Sre.Alt Sre.Eps Sre.Void)) (Some "")
  = @StringMatch.mk Sre.engine true (Some (Sre.Alt Sre.Eps Sre.Void)) (Some "").
Proof.
  split; [reflexivity|]. split; [reflexivity|].
  exact (@X21_repr_is_injective Sre.engine "/" "//" _ _ eq_refl eq_refl eq_refl).
Defined.
